(** * Policy packs of pulumi-lab (experiment 032, policy as code)

    A shallow embedding of the two CrossGuard policy packs,
    [policies/__main__.py] and [compliance-policies/__main__.py], and the
    properties their specification states about them.

    Modelling scope.  Python values are the JSON-like values a resource
    declaration carries: [None], booleans, integers, strings, lists and
    string-keyed dictionaries.  Text is a sequence of ASCII characters and
    the string methods ([upper], [lower], [isdigit], [isalpha]) and the
    regular expressions follow their ASCII behaviour.  Floating point
    numbers are not modelled.  A dictionary is an association list in
    insertion order; looking a key up returns its first binding. *)

From Stdlib Require Import String Ascii ZArith List Bool Lia DecimalString
  Permutation Sorted.
Import ListNotations.
Local Open Scope string_scope.
Local Open Scope Z_scope.
Set Warnings "-register-all".

(** ** Python values and the builtins the policies use *)

Module Py.

Inductive value : Type :=
| VNone
| VBool (b : bool)
| VInt (n : Z)
| VStr (s : string)
| VList (items : list value)
| VDict (entries : list (string * value)).

Definition dict : Type := list (string * value).

(** The exceptions a policy body can raise on its own. *)
Inductive exn : Type :=
| TypeError
| AttributeError.

(** The outcome of a Python expression that may raise. *)
Inductive result (A : Type) : Type :=
| Ok (a : A)
| Raise (e : exn).
Arguments Ok {A} a.
Arguments Raise {A} e.

(** [d.get(key)] on a dictionary: the first binding of [key]. *)
Fixpoint lookup (key : string) (d : dict) : option value :=
  match d with
  | [] => None
  | (k, v) :: rest => if String.eqb k key then Some v else lookup key rest
  end.

(** [d.get(key, default)]. *)
Definition dict_get (d : dict) (key : string) (default : value) : value :=
  match lookup key d with
  | Some v => v
  | None => default
  end.

(** [x.get(key, default)] on an arbitrary value: only dictionaries have
    the method. *)
Definition get (x : value) (key : string) (default : value) : result value :=
  match x with
  | VDict d => Ok (dict_get d key default)
  | _ => Raise AttributeError
  end.

(** [bool(x)], the truth value that [if x] and [not x] test. *)
Definition truthy (x : value) : bool :=
  match x with
  | VNone => false
  | VBool b => b
  | VInt n => negb (n =? 0)
  | VStr s => negb (String.eqb s "")
  | VList l => match l with [] => false | _ => true end
  | VDict d => match d with [] => false | _ => true end
  end.

Definition int_of_bool (b : bool) : Z := if b then 1 else 0.

(** [x == n] for an integer literal [n]; [bool] is a subclass of [int]. *)
Definition eq_int (x : value) (n : Z) : bool :=
  match x with
  | VInt m => m =? n
  | VBool b => int_of_bool b =? n
  | _ => false
  end.

(** [x == s] for a string literal [s]. *)
Definition eq_str (x : value) (s : string) : bool :=
  match x with
  | VStr t => String.eqb t s
  | _ => false
  end.

(** The integer an ordering comparison sees; ordering an integer with
    [None], a string, a list or a dictionary raises [TypeError]. *)
Definition as_int (x : value) : result Z :=
  match x with
  | VInt m => Ok m
  | VBool b => Ok (int_of_bool b)
  | _ => Raise TypeError
  end.

(** [x > n]. *)
Definition gt_int (x : value) (n : Z) : result bool :=
  match as_int x with
  | Ok m => Ok (n <? m)
  | Raise e => Raise e
  end.

(** [x < n]. *)
Definition lt_int (x : value) (n : Z) : result bool :=
  match as_int x with
  | Ok m => Ok (m <? n)
  | Raise e => Raise e
  end.

(** [n > x] with the integer on the left, as in [len(l) > x]. *)
Definition int_gt (n : Z) (x : value) : result bool :=
  match as_int x with
  | Ok m => Ok (m <? n)
  | Raise e => Raise e
  end.

(** *** Strings *)

Definition is_upper (c : ascii) : bool :=
  let n := nat_of_ascii c in (Nat.leb 65 n && Nat.leb n 90)%bool.
Definition is_lower (c : ascii) : bool :=
  let n := nat_of_ascii c in (Nat.leb 97 n && Nat.leb n 122)%bool.
Definition isdigit (c : ascii) : bool :=
  let n := nat_of_ascii c in (Nat.leb 48 n && Nat.leb n 57)%bool.
Definition isalpha (c : ascii) : bool := (is_upper c || is_lower c)%bool.
Definition isalnum (c : ascii) : bool := (isalpha c || isdigit c)%bool.

Definition upper_char (c : ascii) : ascii :=
  if is_lower c then ascii_of_nat (nat_of_ascii c - 32) else c.
Definition lower_char (c : ascii) : ascii :=
  if is_upper c then ascii_of_nat (nat_of_ascii c + 32) else c.

Fixpoint map_string (f : ascii -> ascii) (s : string) : string :=
  match s with
  | EmptyString => EmptyString
  | String c rest => String (f c) (map_string f rest)
  end.

Definition str_upper : string -> string := map_string upper_char.
Definition str_lower : string -> string := map_string lower_char.

(** [x.upper()]: a method of strings only. *)
Definition upper (x : value) : result string :=
  match x with
  | VStr s => Ok (str_upper s)
  | _ => Raise AttributeError
  end.

(** [x.lower()]. *)
Definition lower (x : value) : result string :=
  match x with
  | VStr s => Ok (str_lower s)
  | _ => Raise AttributeError
  end.

Fixpoint any_char (p : ascii -> bool) (s : string) : bool :=
  match s with
  | EmptyString => false
  | String c rest => (p c || any_char p rest)%bool
  end.

Fixpoint starts_with (pre s : string) : bool :=
  match pre, s with
  | EmptyString, _ => true
  | String a pre', String b s' => (Ascii.eqb a b && starts_with pre' s')%bool
  | String _ _, EmptyString => false
  end.

(** [sub in s] on strings. *)
Fixpoint str_contains (sub s : string) : bool :=
  (starts_with sub s ||
   match s with
   | EmptyString => false
   | String _ rest => str_contains sub rest
   end)%bool.

(** [sep.join(parts)]. *)
Fixpoint join (sep : string) (parts : list string) : string :=
  match parts with
  | [] => ""
  | [p] => p
  | p :: rest => p ++ sep ++ join sep rest
  end.

Definition str_of_Z (n : Z) : string := NilZero.string_of_int (Z.to_int n).
Definition str_of_nat (n : nat) : string := str_of_Z (Z.of_nat n).

Definition hex_digit (n : nat) : ascii :=
  if Nat.ltb n 10 then ascii_of_nat (48 + n) else ascii_of_nat (87 + n).

(** The escaped form of one character inside [repr] of a string quoted
    with [quote]. *)
Definition repr_char (quote c : ascii) : string :=
  let n := nat_of_ascii c in
  if Ascii.eqb c "\" then "\\"
  else if Ascii.eqb c quote then String "\" (String c "")
  else if Nat.eqb n 10 then "\n"
  else if Nat.eqb n 13 then "\r"
  else if Nat.eqb n 9 then "\t"
  else if (Nat.ltb n 32 || Nat.eqb n 127)%bool
       then "\x" ++ String (hex_digit (n / 16)) (String (hex_digit (n mod 16)) "")
  else String c "".

Fixpoint concat_map_string (f : ascii -> string) (s : string) : string :=
  match s with
  | EmptyString => ""
  | String c rest => f c ++ concat_map_string f rest
  end.

Definition single_quote : ascii := "039".
Definition double_quote : ascii := "034".

(** [repr(s)]: single quotes, unless the text has a single quote and no
    double quote. *)
Definition repr_str (s : string) : string :=
  let quote :=
    if (any_char (Ascii.eqb single_quote) s
        && negb (any_char (Ascii.eqb double_quote) s))%bool
    then double_quote else single_quote in
  String quote (concat_map_string (repr_char quote) s ++ String quote "").

(** [repr(x)]. *)
Fixpoint repr (x : value) : string :=
  match x with
  | VNone => "None"
  | VBool true => "True"
  | VBool false => "False"
  | VInt n => str_of_Z n
  | VStr s => repr_str s
  | VList l => "[" ++ join ", " (map repr l) ++ "]"
  | VDict d =>
      "{" ++ join ", " (map (fun kv => match kv with
                                       | (k, v) => repr_str k ++ ": " ++ repr v
                                       end) d) ++ "}"
  end.

(** [str(x)], what an f-string substitutes for [{x}]. *)
Definition str (x : value) : string :=
  match x with
  | VStr s => s
  | _ => repr x
  end.

(** *** Iteration *)

Fixpoint chars (s : string) : list value :=
  match s with
  | EmptyString => []
  | String c rest => VStr (String c "") :: chars rest
  end.

(** The items [for item in x] visits: the elements of a list, the
    characters of a string, the keys of a dictionary; nothing else is
    iterable. *)
Definition iter (x : value) : result (list value) :=
  match x with
  | VList l => Ok l
  | VStr s => Ok (chars s)
  | VDict d => Ok (map (fun kv => VStr (fst kv)) d)
  | _ => Raise TypeError
  end.

(** [x.items()]: a method of dictionaries only. *)
Definition items (x : value) : result (list (string * value)) :=
  match x with
  | VDict d => Ok d
  | _ => Raise AttributeError
  end.

End Py.

(** ** Regular expressions: the part of [re.search] the policies rely on *)

Module Re.

Inductive regex : Type :=
| Never
| Empty
| Class (p : ascii -> bool)
| Seq (r s : regex)
| Alt (r s : regex)
| Star (r : regex).

Fixpoint nullable (r : regex) : bool :=
  match r with
  | Never => false
  | Empty => true
  | Class _ => false
  | Seq r s => (nullable r && nullable s)%bool
  | Alt r s => (nullable r || nullable s)%bool
  | Star _ => true
  end.

(** What is left of [r] once it has read the character [c]. *)
Fixpoint deriv (c : ascii) (r : regex) : regex :=
  match r with
  | Never => Never
  | Empty => Never
  | Class p => if p c then Empty else Never
  | Seq r s =>
      if nullable r then Alt (Seq (deriv c r) s) (deriv c s)
      else Seq (deriv c r) s
  | Alt r s => Alt (deriv c r) (deriv c s)
  | Star r => Seq (deriv c r) (Star r)
  end.

(** Does some prefix of [s] match [r]?  ([re.match]) *)
Fixpoint match_prefix (r : regex) (s : string) : bool :=
  (nullable r ||
   match s with
   | EmptyString => false
   | String c rest => match_prefix (deriv c r) rest
   end)%bool.

(** Does [r] match somewhere in [s]?  ([re.search(r, s)] is not None) *)
Fixpoint search (r : regex) (s : string) : bool :=
  (match_prefix r s ||
   match s with
   | EmptyString => false
   | String _ rest => search r rest
   end)%bool.

(** Pattern syntax. *)
Definition char (c : ascii) : regex := Class (Ascii.eqb c).
(** A letter under the [(?i)] flag. *)
Definition char_i (c : ascii) : regex :=
  Class (fun x => Ascii.eqb (Py.lower_char x) (Py.lower_char c)).

Fixpoint text_with (one : ascii -> regex) (s : string) : regex :=
  match s with
  | EmptyString => Empty
  | String c rest => Seq (one c) (text_with one rest)
  end.
Definition text : string -> regex := text_with char.
Definition text_i : string -> regex := text_with char_i.

Fixpoint alts (rs : list regex) : regex :=
  match rs with
  | [] => Never
  | [r] => r
  | r :: rest => Alt r (alts rest)
  end.

(** [r?] *)
Definition opt (r : regex) : regex := Alt Empty r.
(** [[cs]], a set of characters. *)
Definition one_of (cs : string) : regex :=
  Class (fun x => Py.any_char (Ascii.eqb x) cs).
(** [r{n,}] *)
Fixpoint at_least (n : nat) (r : regex) : regex :=
  match n with
  | O => Star r
  | S m => Seq r (at_least m r)
  end.

End Re.

(** ** A JSON decoder

    [json.loads] belongs to Python's library, so the IAM policy below takes
    its decoder as a parameter.  This decoder, for the documents without
    fractional numbers and unicode escapes, is what the parameter is
    instantiated with on concrete documents. *)

Module Json.
Import Py.

Definition is_ws (c : ascii) : bool :=
  let n := nat_of_ascii c in
  (Nat.eqb n 32 || Nat.eqb n 9 || Nat.eqb n 10 || Nat.eqb n 13)%bool.

Fixpoint skip_ws (s : string) : string :=
  match s with
  | String c rest => if is_ws c then skip_ws rest else s
  | EmptyString => s
  end.

Definition unescape (c : ascii) : option ascii :=
  let n := nat_of_ascii c in
  if (Nat.eqb n 34 || Nat.eqb n 92 || Nat.eqb n 47)%bool then Some c
  else if Ascii.eqb c "n" then Some (ascii_of_nat 10)
  else if Ascii.eqb c "t" then Some (ascii_of_nat 9)
  else if Ascii.eqb c "r" then Some (ascii_of_nat 13)
  else if Ascii.eqb c "b" then Some (ascii_of_nat 8)
  else if Ascii.eqb c "f" then Some (ascii_of_nat 12)
  else None.

(** The text of a string literal, read after its opening quote. *)
Fixpoint string_body (s : string) : option (string * string) :=
  match s with
  | EmptyString => None
  | String c rest =>
      if Ascii.eqb c double_quote then Some ("", rest)
      else if Ascii.eqb c "\" then
        match rest with
        | EmptyString => None
        | String e rest' =>
            match unescape e, string_body rest' with
            | Some c', Some (body, out) => Some (String c' body, out)
            | _, _ => None
            end
        end
      else if Nat.ltb (nat_of_ascii c) 32 then None
      else
        match string_body rest with
        | Some (body, out) => Some (String c body, out)
        | None => None
        end
  end.

Fixpoint digits (acc : Z) (s : string) : Z * string :=
  match s with
  | String c rest =>
      if isdigit c then digits (10 * acc + Z.of_nat (nat_of_ascii c - 48)) rest
      else (acc, s)
  | EmptyString => (acc, s)
  end.

(** An integer literal: digits without a leading zero, and no fraction
    or exponent after them. *)
Definition number (s : string) : option (Z * string) :=
  match s with
  | String c rest =>
      if isdigit c then
        let '(n, out) := digits 0 s in
        let leading_zero :=
          (Ascii.eqb c "0" &&
           match rest with String d _ => isdigit d | EmptyString => false end)%bool in
        let fractional :=
          match out with
          | String d _ => (Ascii.eqb d "." || Ascii.eqb d "e" || Ascii.eqb d "E")%bool
          | EmptyString => false
          end in
        if (leading_zero || fractional)%bool then None else Some (n, out)
      else None
  | EmptyString => None
  end.

(** A repeated key keeps its place and takes the later value. *)
Fixpoint dict_set (d : dict) (key : string) (v : value) : dict :=
  match d with
  | [] => [(key, v)]
  | (k, w) :: rest =>
      if String.eqb k key then (k, v) :: rest else (k, w) :: dict_set rest key v
  end.

Definition drop (n : nat) (s : string) : string :=
  String.substring n (String.length s - n) s.

Section Containers.
Variable element : string -> option (value * string).

(** The elements of an array, read after [[] or after a comma. *)
Fixpoint elements (fuel : nat) (acc : list value) (s : string)
  : option (list value * string) :=
  match fuel with
  | O => None
  | S fuel' =>
      match element s with
      | None => None
      | Some (v, out) =>
          match skip_ws out with
          | String c rest =>
              if Ascii.eqb c "," then elements fuel' (acc ++ [v])%list rest
              else if Ascii.eqb c "]" then Some ((acc ++ [v])%list, rest)
              else None
          | EmptyString => None
          end
      end
  end.

(** The members of an object, read after [{] or after a comma. *)
Fixpoint members (fuel : nat) (acc : dict) (s : string)
  : option (dict * string) :=
  match fuel with
  | O => None
  | S fuel' =>
      match skip_ws s with
      | String q rest =>
          if Ascii.eqb q double_quote then
            match string_body rest with
            | None => None
            | Some (key, out) =>
                match skip_ws out with
                | String colon out' =>
                    if Ascii.eqb colon ":" then
                      match element out' with
                      | None => None
                      | Some (v, out'') =>
                          match skip_ws out'' with
                          | String c rest' =>
                              if Ascii.eqb c ","
                              then members fuel' (dict_set acc key v) rest'
                              else if Ascii.eqb c "}"
                              then Some (dict_set acc key v, rest')
                              else None
                          | EmptyString => None
                          end
                      end
                    else None
                | EmptyString => None
                end
            end
          else None
      | EmptyString => None
      end
  end.
End Containers.

(** One JSON value at the head of [s], and the text after it. *)
Fixpoint parse (fuel : nat) (s : string) : option (value * string) :=
  match fuel with
  | O => None
  | S fuel' =>
      let s := skip_ws s in
      match s with
      | EmptyString => None
      | String c rest =>
          if Ascii.eqb c "{" then
            match skip_ws rest with
            | String c' rest' =>
                if Ascii.eqb c' "}" then Some (VDict [], rest')
                else
                  match members (parse fuel') (String.length rest) [] rest with
                  | Some (d, out) => Some (VDict d, out)
                  | None => None
                  end
            | EmptyString => None
            end
          else if Ascii.eqb c "[" then
            match skip_ws rest with
            | String c' rest' =>
                if Ascii.eqb c' "]" then Some (VList [], rest')
                else
                  match elements (parse fuel') (String.length rest) [] rest with
                  | Some (l, out) => Some (VList l, out)
                  | None => None
                  end
            | EmptyString => None
            end
          else if Ascii.eqb c double_quote then
            match string_body rest with
            | Some (body, out) => Some (VStr body, out)
            | None => None
            end
          else if starts_with "true" s then Some (VBool true, drop 4 s)
          else if starts_with "false" s then Some (VBool false, drop 5 s)
          else if starts_with "null" s then Some (VNone, drop 4 s)
          else if Ascii.eqb c "-" then
            match number rest with
            | Some (n, out) => Some (VInt (- n), out)
            | None => None
            end
          else
            match number s with
            | Some (n, out) => Some (VInt n, out)
            | None => None
            end
      end
  end.

(** The value of a whole document; [None] stands for [JSONDecodeError]. *)
Definition decode (s : string) : option value :=
  match parse (S (String.length s)) s with
  | Some (v, out) =>
      match skip_ws out with
      | EmptyString => Some v
      | String _ _ => None
      end
  | None => None
  end.

End Json.

(** ** The policy framework as the packs see it *)

Module PulumiPolicy.
Import Py.

Inductive EnforcementLevel : Type :=
| ADVISORY
| MANDATORY.

(** One call of [report_violation(message, level)]. *)
Record Report : Type := mkReport {
  message : string;
  level : EnforcementLevel
}.

(** A policy body runs against the reports made so far; it returns or
    raises, and leaves the reports extended. *)
Definition M (A : Type) : Type := list Report -> result A * list Report.

Definition ret {A : Type} (a : A) : M A := fun log => (Ok a, log).

Definition bind {A B : Type} (m : M A) (k : A -> M B) : M B :=
  fun log =>
    match m log with
    | (Ok a, log') => k a log'
    | (Raise e, log') => (Raise e, log')
    end.

(** An expression that may raise, evaluated inside a body. *)
Definition lift {A : Type} (r : result A) : M A := fun log => (r, log).

Definition when (b : bool) (m : M unit) : M unit :=
  if b then m else ret tt.

(** [for x in l: body(x)]. *)
Fixpoint for_each {A : Type} (l : list A) (body : A -> M unit) : M unit :=
  match l with
  | [] => ret tt
  | x :: rest => bind (body x) (fun _ => for_each rest body)
  end.

(** The callback a validation function is handed. *)
Definition ReportViolation : Type := string -> EnforcementLevel -> M unit.

(** The framework's callback: it appends the report. *)
Definition report_violation : ReportViolation :=
  fun msg lvl log => (Ok tt, (log ++ [mkReport msg lvl])%list).

(** The object a resource validation receives: the policies read its
    [resource_type] attribute and call its [get] method. *)
Record ResourceValidationArgs : Type := mkArgs {
  resource_type : string;
  fields : dict
}.

(** [args.get(key, default)]. *)
Definition args_get (args : ResourceValidationArgs) (key : string)
           (default : value) : value :=
  dict_get (fields args) key default.

(** The object a stack validation receives. *)
Record StackValidationArgs : Type := mkStack {
  resources : list ResourceValidationArgs
}.

Definition ResourceValidate : Type :=
  ResourceValidationArgs -> ReportViolation -> dict -> M unit.
Definition StackValidate : Type :=
  StackValidationArgs -> ReportViolation -> dict -> M unit.

(** The entries of a pack's [policies] list: the two policy classes, and
    the plain dictionaries the compliance pack lists. *)
Inductive Policy : Type :=
| ResourceValidationPolicy (name description : string)
                           (validate : ResourceValidate)
| StackValidationPolicy (name description : string)
                        (validate : StackValidate)
| PolicyEntry (name description : string) (validate : ResourceValidate)
              (compliance_frameworks : list string) (severity : string)
              (topics : list string).

Record ConfigProperty : Type := mkProperty {
  property_type : string;
  property_enum : list string;
  property_default : value
}.

Definition PolicyConfigSchema : Type := list (string * ConfigProperty).

Record PolicyPack : Type := mkPack {
  pack_name : string;
  pack_config_schema : PolicyConfigSchema;
  pack_policies : list Policy
}.

(** A validation run on its own: the outcome and the reports it made. *)
Definition run {Args : Type} (validate : Args -> ReportViolation -> dict -> M unit)
           (args : Args) (config : dict) : result unit * list Report :=
  validate args report_violation config [].

End PulumiPolicy.

Declare Scope policy_scope.
Delimit Scope policy_scope with policy.
Notation "x <- m ;; k" := (PulumiPolicy.bind m (fun x => k))
  (at level 61, m at next level, right associativity) : policy_scope.
Notation "m ;; k" := (PulumiPolicy.bind m (fun _ => k))
  (at level 61, right associativity) : policy_scope.

(** ** policies/__main__.py *)

Module Policies.
Import Py PulumiPolicy.
Local Open Scope policy_scope.

Definition config_schema : PolicyConfigSchema :=
  [ ("enforcement-level",
     mkProperty "string" ["advisory"; "mandatory"] (VStr "mandatory"));
    ("max-s3-buckets", mkProperty "number" [] (VInt 5));
    ("require-https", mkProperty "boolean" [] (VBool true));
    ("require-encryption", mkProperty "boolean" [] (VBool true)) ].

Definition get_enforcement_level (config : dict) : EnforcementLevel :=
  let level := dict_get config "enforcement-level" (VStr "mandatory") in
  if eq_str level "mandatory" then MANDATORY else ADVISORY.

(** *** S3 *)

Definition s3_bucket_public_access_block : ResourceValidate :=
  fun args report_violation config =>
  if String.eqb (resource_type args)
                "aws:s3/bucketPublicAccessBlock:BucketPublicAccessBlock"
  then
    let props := args_get args "props" (VDict []) in
    let violations : list string := [] in
    v1 <- lift (get props "blockPublicAcls" (VBool true)) ;;
    let violations :=
      if negb (truthy v1)
      then (violations ++ ["blockPublicAcls should be true"])%list
      else violations in
    v2 <- lift (get props "blockPublicPolicy" (VBool true)) ;;
    let violations :=
      if negb (truthy v2)
      then (violations ++ ["blockPublicPolicy should be true"])%list
      else violations in
    v3 <- lift (get props "ignorePublicAcls" (VBool true)) ;;
    let violations :=
      if negb (truthy v3)
      then (violations ++ ["ignorePublicAcls should be true"])%list
      else violations in
    v4 <- lift (get props "restrictPublicBuckets" (VBool true)) ;;
    let violations :=
      if negb (truthy v4)
      then (violations ++ ["restrictPublicBuckets should be true"])%list
      else violations in
    match violations with
    | [] => ret tt
    | _ :: _ =>
        report_violation
          ("S3 bucket public access block violations: " ++ join ", " violations)
          (get_enforcement_level config)
    end
  else ret tt.

Definition s3_bucket_versioning_enabled : ResourceValidate :=
  fun args report_violation config =>
  if String.eqb (resource_type args)
                "aws:s3/bucketVersioningV2:BucketVersioningV2"
  then
    let props := args_get args "props" (VDict []) in
    versioning_config <- lift (get props "versioningConfiguration" (VDict [])) ;;
    status <- lift (get versioning_config "status" VNone) ;;
    when (negb (eq_str status "Enabled"))
         (report_violation
            "S3 bucket should have versioning enabled for data protection"
            (get_enforcement_level config))
  else ret tt.

Definition s3_bucket_encryption_required : ResourceValidate :=
  fun args report_violation config =>
  if negb (truthy (dict_get config "require-encryption" (VBool true)))
  then ret tt
  else
  if String.eqb (resource_type args)
       "aws:s3/bucketServerSideEncryptionConfigurationV2:BucketServerSideEncryptionConfigurationV2"
  then
    let props := args_get args "props" (VDict []) in
    rules <- lift (get props "rules" (VList [])) ;;
    if negb (truthy rules)
    then report_violation
           "S3 bucket must have server-side encryption configured"
           (get_enforcement_level config)
    else
      rule_list <- lift (iter rules) ;;
      for_each rule_list (fun rule =>
        apply_config <- lift (get rule "applyServerSideEncryptionByDefault" (VDict [])) ;;
        algorithm <- lift (get apply_config "sseAlgorithm" VNone) ;;
        when (negb (truthy algorithm))
             (report_violation
                "S3 bucket encryption rule must specify SSE algorithm"
                (get_enforcement_level config)))
  else ret tt.

(** *** IAM *)

Section WithJson.
(** [json.loads]; [None] stands for [json.JSONDecodeError]. *)
Variable json_loads : string -> option value.

Definition iam_policy_no_wildcard_actions : ResourceValidate :=
  fun args report_violation config =>
  if String.eqb (resource_type args) "aws:iam/policy:Policy"
  then
    let props := args_get args "props" (VDict []) in
    policy_doc <- lift (get props "policy" VNone) ;;
    match policy_doc with
    | VStr doc =>
        if truthy policy_doc
        then
          match json_loads doc with
          | Some policy =>
              statements <- lift (get policy "Statement" (VList [])) ;;
              let statements :=
                match statements with
                | VList l => l
                | other => [other]
                end in
              for_each statements (fun statement =>
                actions <- lift (get statement "Action" (VList [])) ;;
                let actions :=
                  match actions with
                  | VList l => l
                  | other => [other]
                  end in
                for_each actions (fun action =>
                  when (eq_str action "*" ||
                        match action with
                        | VStr a => str_contains "*:*" a
                        | _ => false
                        end)%bool
                       (report_violation
                          ("IAM policy contains overly permissive action: "
                           ++ str action)
                          MANDATORY)))
          | None =>
              report_violation "IAM policy document is not valid JSON" MANDATORY
          end
        else ret tt
    | _ => ret tt
    end
  else ret tt.
End WithJson.

Definition iam_role_no_inline_policies : ResourceValidate :=
  fun args report_violation config =>
  if String.eqb (resource_type args) "aws:iam/role:Role"
  then
    let props := args_get args "props" (VDict []) in
    inline_policies <- lift (get props "inlinePolicies" (VList [])) ;;
    when (truthy inline_policies)
         (report_violation
            "IAM role should use managed policies instead of inline policies for better governance"
            (get_enforcement_level config))
  else ret tt.

(** *** Lambda *)

Definition secret_patterns : list Re.regex :=
  [ (* (?i)(password|pwd|pass) *)
    Re.alts [Re.text_i "password"; Re.text_i "pwd"; Re.text_i "pass"];
    (* (?i)(secret|key|token) *)
    Re.alts [Re.text_i "secret"; Re.text_i "key"; Re.text_i "token"];
    (* (?i)(api[_-]?key) *)
    Re.Seq (Re.text_i "api") (Re.Seq (Re.opt (Re.one_of "_-")) (Re.text_i "key"));
    (* sk-[a-zA-Z0-9]{20,} *)
    Re.Seq (Re.text "sk-") (Re.at_least 20 (Re.Class isalnum));
    (* (?i)(access[_-]?key) *)
    Re.Seq (Re.text_i "access") (Re.Seq (Re.opt (Re.one_of "_-")) (Re.text_i "key"));
    (* (?i)(private[_-]?key) *)
    Re.Seq (Re.text_i "private") (Re.Seq (Re.opt (Re.one_of "_-")) (Re.text_i "key")) ].

Definition lambda_no_hardcoded_secrets : ResourceValidate :=
  fun args report_violation config =>
  if String.eqb (resource_type args) "aws:lambda/function:Function"
  then
    let props := args_get args "props" (VDict []) in
    environment <- lift (get props "environment" (VDict [])) ;;
    variables <- lift (get environment "variables" (VDict [])) ;;
    pairs <- lift (items variables) ;;
    for_each pairs (fun '(var_name, var_value) =>
      match var_value with
      | VStr text =>
          (* the first pattern found in the name reports, then [break] *)
          when (existsb (fun pattern => Re.search pattern var_name) secret_patterns)
               (report_violation
                  ("Lambda function environment variable '" ++ var_name
                   ++ "' appears to contain a secret. Use AWS Secrets Manager or Parameter Store instead.")
                  MANDATORY) ;;
          when (Nat.ltb 10 (String.length text)
                && any_char isdigit text && any_char isalpha text)%bool
               (for_each (firstn 3 secret_patterns) (fun pattern =>
                  when (Re.search pattern (str_lower var_name))
                       (report_violation
                          ("Lambda function environment variable '" ++ var_name
                           ++ "' appears to contain a hardcoded secret")
                          MANDATORY)))
      | _ => ret tt
      end)
  else ret tt.

Definition lambda_reasonable_timeout : ResourceValidate :=
  fun args report_violation config =>
  if String.eqb (resource_type args) "aws:lambda/function:Function"
  then
    let props := args_get args "props" (VDict []) in
    timeout <- lift (get props "timeout" (VInt 3)) ;;
    excessive <- lift (gt_int timeout 300) ;;
    when excessive
         (report_violation
            ("Lambda function timeout (" ++ str timeout
             ++ "s) is excessive. Consider if this is necessary.")
            (get_enforcement_level config))
  else ret tt.

(** *** Load balancers *)

Definition alb_listener_https_only : ResourceValidate :=
  fun args report_violation config =>
  if negb (truthy (dict_get config "require-https" (VBool true)))
  then ret tt
  else
  if String.eqb (resource_type args) "aws:lb/listener:Listener"
  then
    let props := args_get args "props" (VDict []) in
    protocol <- lift (get props "protocol" (VStr "")) ;;
    port <- lift (get props "port" (VInt 80)) ;;
    upper1 <- lift (upper protocol) ;;
    if (String.eqb upper1 "HTTP" && negb (eq_int port 80))%bool
    then report_violation
           ("Load balancer listener should use HTTPS instead of HTTP on port "
            ++ str port)
           (get_enforcement_level config)
    else
      upper2 <- lift (upper protocol) ;;
      when (String.eqb upper2 "HTTP" && eq_int port 80)%bool
           (report_violation
              "Load balancer listener uses HTTP on port 80. Consider implementing HTTPS redirect."
              ADVISORY)
  else ret tt.

(** *** Security groups *)

Definition security_group_no_unrestricted_ingress : ResourceValidate :=
  fun args report_violation config =>
  if String.eqb (resource_type args) "aws:ec2/securityGroup:SecurityGroup"
  then
    let props := args_get args "props" (VDict []) in
    ingress_rules <- lift (get props "ingressRules" (VList [])) ;;
    rule_list <- lift (iter ingress_rules) ;;
    for_each rule_list (fun rule =>
      cidr_ipv4 <- lift (get rule "cidrIpv4" (VStr "")) ;;
      from_port <- lift (get rule "fromPort" (VInt 0)) ;;
      to_port <- lift (get rule "toPort" (VInt 0)) ;;
      when (eq_str cidr_ipv4 "0.0.0.0/0")
           (if (eq_int from_port 0 && eq_int to_port 65535)%bool
            then report_violation
                   "Security group allows unrestricted access on all ports from anywhere"
                   MANDATORY
            else
              when (negb (eq_int from_port 80) && negb (eq_int from_port 443))%bool
                   (report_violation
                      ("Security group allows unrestricted access on port "
                       ++ str from_port ++ " from anywhere")
                      (get_enforcement_level config))))
  else ret tt.

(** *** RDS *)

Definition rds_instance_encrypted_storage : ResourceValidate :=
  fun args report_violation config =>
  if negb (truthy (dict_get config "require-encryption" (VBool true)))
  then ret tt
  else
  if String.eqb (resource_type args) "aws:rds/instance:Instance"
  then
    let props := args_get args "props" (VDict []) in
    storage_encrypted <- lift (get props "storageEncrypted" (VBool false)) ;;
    when (negb (truthy storage_encrypted))
         (report_violation
            "RDS instance should have encrypted storage enabled"
            (get_enforcement_level config))
  else ret tt.

Definition rds_instance_not_publicly_accessible : ResourceValidate :=
  fun args report_violation config =>
  if String.eqb (resource_type args) "aws:rds/instance:Instance"
  then
    let props := args_get args "props" (VDict []) in
    publicly_accessible <- lift (get props "publiclyAccessible" (VBool false)) ;;
    when (truthy publicly_accessible)
         (report_violation
            "RDS instance should not be publicly accessible"
            MANDATORY)
  else ret tt.

Definition rds_instance_backup_retention : ResourceValidate :=
  fun args report_violation config =>
  if String.eqb (resource_type args) "aws:rds/instance:Instance"
  then
    let props := args_get args "props" (VDict []) in
    backup_retention <- lift (get props "backupRetentionPeriod" (VInt 0)) ;;
    when (eq_int backup_retention 0)
         (report_violation
            "RDS instance should have backup retention period configured (non-zero)"
            (get_enforcement_level config))
  else ret tt.

(** *** Stack-wide *)

Definition s3_bucket_count_limit : StackValidate :=
  fun args report_violation config =>
  let max_buckets := dict_get config "max-s3-buckets" (VInt 5) in
  let s3_buckets :=
    filter (fun r => String.eqb (resource_type r) "aws:s3/bucketV2:BucketV2")
           (resources args) in
  over <- lift (int_gt (Z.of_nat (length s3_buckets)) max_buckets) ;;
  when over
       (report_violation
          ("Stack contains " ++ str_of_nat (length s3_buckets)
           ++ " S3 buckets, which exceeds the limit of " ++ str max_buckets)
          (get_enforcement_level config)).

(** *** The pack *)

Definition policies (json_loads : string -> option value) : PolicyPack :=
  mkPack "pulumi-lab-policies" config_schema
    [ ResourceValidationPolicy "s3-bucket-public-access-block"
        "S3 buckets should have public access blocked"
        s3_bucket_public_access_block;
      ResourceValidationPolicy "s3-bucket-versioning-enabled"
        "S3 buckets should have versioning enabled"
        s3_bucket_versioning_enabled;
      ResourceValidationPolicy "s3-bucket-encryption-required"
        "S3 buckets should have server-side encryption"
        s3_bucket_encryption_required;
      ResourceValidationPolicy "iam-policy-no-wildcard-actions"
        "IAM policies should not use wildcard actions"
        (iam_policy_no_wildcard_actions json_loads);
      ResourceValidationPolicy "iam-role-no-inline-policies"
        "IAM roles should use managed policies"
        iam_role_no_inline_policies;
      ResourceValidationPolicy "lambda-no-hardcoded-secrets"
        "Lambda functions should not have hardcoded secrets"
        lambda_no_hardcoded_secrets;
      ResourceValidationPolicy "lambda-reasonable-timeout"
        "Lambda functions should have reasonable timeouts"
        lambda_reasonable_timeout;
      ResourceValidationPolicy "alb-listener-https-only"
        "ALB listeners should use HTTPS"
        alb_listener_https_only;
      ResourceValidationPolicy "security-group-no-unrestricted-ingress"
        "Security groups should not allow unrestricted access"
        security_group_no_unrestricted_ingress;
      ResourceValidationPolicy "rds-instance-encrypted-storage"
        "RDS instances should have encrypted storage"
        rds_instance_encrypted_storage;
      ResourceValidationPolicy "rds-instance-not-publicly-accessible"
        "RDS instances should not be publicly accessible"
        rds_instance_not_publicly_accessible;
      ResourceValidationPolicy "rds-instance-backup-retention"
        "RDS instances should have backup retention"
        rds_instance_backup_retention;
      StackValidationPolicy "s3-bucket-count-limit"
        "Limit number of S3 buckets per stack"
        s3_bucket_count_limit ].

End Policies.

(** ** compliance-policies/__main__.py *)

Module CompliancePolicies.
Import Py PulumiPolicy.
Local Open Scope policy_scope.

(** *** ISO 27001 *)

Definition iso27001_s3_encryption_at_rest : ResourceValidate :=
  fun args report_violation config =>
  if String.eqb (resource_type args) "aws:s3/bucketV2:BucketV2"
  then report_violation
         "ISO 27001 Compliance: S3 bucket must have server-side encryption configured"
         MANDATORY
  else ret tt.

Definition iso27001_rds_encryption : ResourceValidate :=
  fun args report_violation config =>
  if String.eqb (resource_type args) "aws:rds/instance:Instance"
  then
    let props := args_get args "props" (VDict []) in
    storage_encrypted <- lift (get props "storageEncrypted" (VBool false)) ;;
    when (negb (truthy storage_encrypted))
         (report_violation
            "ISO 27001 Compliance: RDS instance storage must be encrypted"
            MANDATORY)
  else ret tt.

(** *** PCI DSS *)

Definition pcidss_alb_https_only : ResourceValidate :=
  fun args report_violation config =>
  if String.eqb (resource_type args) "aws:lb/listener:Listener"
  then
    let props := args_get args "props" (VDict []) in
    raw <- lift (get props "protocol" (VStr "")) ;;
    protocol <- lift (upper raw) ;;
    when (String.eqb protocol "HTTP")
         (report_violation
            "PCI DSS Compliance: Load balancer listeners must use HTTPS to protect cardholder data"
            MANDATORY)
  else ret tt.

Definition pcidss_no_default_security_groups : ResourceValidate :=
  fun args report_violation config =>
  if String.eqb (resource_type args) "aws:ec2/securityGroup:SecurityGroup"
  then
    let props := args_get args "props" (VDict []) in
    name <- lift (get props "name" (VStr "")) ;;
    lowered <- lift (lower name) ;;
    when (String.eqb lowered "default")
         (report_violation
            "PCI DSS Compliance: Default security groups should not be used"
            MANDATORY)
  else ret tt.

(** *** HITRUST *)

Definition hitrust_cloudtrail_enabled : ResourceValidate :=
  fun args report_violation config =>
  if String.eqb (resource_type args) "aws:cloudtrail/trail:Trail"
  then
    let props := args_get args "props" (VDict []) in
    enable_logging <- lift (get props "enableLogging" (VBool false)) ;;
    when (negb (truthy enable_logging))
         (report_violation
            "HITRUST Compliance: CloudTrail logging must be enabled for audit requirements"
            MANDATORY)
  else ret tt.

Definition hitrust_s3_logging_enabled : ResourceValidate :=
  fun args report_violation config =>
  if String.eqb (resource_type args) "aws:s3/bucketLoggingV2:BucketLoggingV2"
  then ret tt   (* pass *)
  else ret tt.

(** *** SOC 2 *)

Definition soc2_lambda_environment_encryption : ResourceValidate :=
  fun args report_violation config =>
  if String.eqb (resource_type args) "aws:lambda/function:Function"
  then
    let props := args_get args "props" (VDict []) in
    kms_key_arn <- lift (get props "kmsKeyArn" VNone) ;;
    environment <- lift (get props "environment" (VDict [])) ;;
    variables <- lift (get environment "variables" (VDict [])) ;;
    when (truthy variables && negb (truthy kms_key_arn))%bool
         (report_violation
            "SOC 2 Compliance: Lambda environment variables must be encrypted with KMS"
            MANDATORY)
  else ret tt.

Definition soc2_rds_backup_retention : ResourceValidate :=
  fun args report_violation config =>
  if String.eqb (resource_type args) "aws:rds/instance:Instance"
  then
    let props := args_get args "props" (VDict []) in
    retention <- lift (get props "backupRetentionPeriod" (VInt 0)) ;;
    short <- lift (lt_int retention 7) ;;
    when short
         (report_violation
            "SOC 2 Compliance: RDS instances must have backup retention period of at least 7 days"
            MANDATORY)
  else ret tt.

(** *** GDPR *)

Definition gdpr_s3_versioning_for_data_protection : ResourceValidate :=
  fun args report_violation config =>
  if String.eqb (resource_type args)
                "aws:s3/bucketVersioningV2:BucketVersioningV2"
  then
    let props := args_get args "props" (VDict []) in
    versioning_config <- lift (get props "versioningConfiguration" (VDict [])) ;;
    status <- lift (get versioning_config "status" VNone) ;;
    when (negb (eq_str status "Enabled"))
         (report_violation
            "GDPR Compliance: S3 bucket versioning must be enabled for data protection and recovery"
            MANDATORY)
  else ret tt.

Definition gdpr_data_encryption_in_transit : ResourceValidate :=
  fun args report_violation config =>
  if String.eqb (resource_type args) "aws:lb/listener:Listener"
  then
    let props := args_get args "props" (VDict []) in
    raw <- lift (get props "protocol" (VStr "")) ;;
    protocol <- lift (upper raw) ;;
    port <- lift (get props "port" (VInt 80)) ;;
    when (String.eqb protocol "HTTP" && negb (eq_int port 80))%bool
         (report_violation
            "GDPR Compliance: Data transmission must be encrypted (use HTTPS)"
            MANDATORY)
  else ret tt.

(** *** NIST *)

Definition nist_multi_factor_authentication : ResourceValidate :=
  fun args report_violation config =>
  if String.eqb (resource_type args) "aws:iam/user:User"
  then report_violation
         "NIST Cybersecurity Framework: IAM users should have multi-factor authentication enabled"
         ADVISORY
  else ret tt.

Definition nist_network_segmentation : ResourceValidate :=
  fun args report_violation config =>
  if String.eqb (resource_type args) "aws:ec2/securityGroup:SecurityGroup"
  then
    let props := args_get args "props" (VDict []) in
    ingress_rules <- lift (get props "ingressRules" (VList [])) ;;
    rule_list <- lift (iter ingress_rules) ;;
    for_each rule_list (fun rule =>
      cidr <- lift (get rule "cidrIpv4" (VStr "")) ;;
      if eq_str cidr "0.0.0.0/0"
      then
        from_port <- lift (get rule "fromPort" (VInt 0)) ;;
        to_port <- lift (get rule "toPort" (VInt 65535)) ;;
        when (eq_int from_port 0 && eq_int to_port 65535)%bool
             (report_violation
                "NIST Cybersecurity Framework: Network access should be segmented, avoid unrestricted access"
                MANDATORY)
      else ret tt)
  else ret tt.

(** *** The pack *)

Definition compliance_policies : PolicyPack :=
  mkPack "aws-compliance-policies" []
    [ PolicyEntry "iso27001-s3-encryption-at-rest"
        "ISO 27001: S3 buckets must have encryption at rest"
        iso27001_s3_encryption_at_rest
        ["ISO 27001"] "critical" ["encryption"; "data-protection"];
      PolicyEntry "iso27001-rds-encryption"
        "ISO 27001: RDS instances must have encryption enabled"
        iso27001_rds_encryption
        ["ISO 27001"] "critical" ["encryption"; "database-security"];
      PolicyEntry "pcidss-alb-https-only"
        "PCI DSS: Application Load Balancers must use HTTPS"
        pcidss_alb_https_only
        ["PCI DSS"] "high" ["network-security"; "encryption-in-transit"];
      PolicyEntry "pcidss-no-default-security-groups"
        "PCI DSS: Default security groups should not be used"
        pcidss_no_default_security_groups
        ["PCI DSS"] "medium" ["network-security"; "access-control"];
      PolicyEntry "hitrust-cloudtrail-enabled"
        "HITRUST: CloudTrail must be enabled for audit logging"
        hitrust_cloudtrail_enabled
        ["HITRUST"] "high" ["logging"; "audit"; "monitoring"];
      PolicyEntry "soc2-lambda-environment-encryption"
        "SOC 2: Lambda environment variables must be encrypted"
        soc2_lambda_environment_encryption
        ["SOC 2"] "medium" ["encryption"; "serverless-security"];
      PolicyEntry "soc2-rds-backup-retention"
        "SOC 2: RDS instances must have backup retention"
        soc2_rds_backup_retention
        ["SOC 2"] "medium" ["backup"; "data-availability"];
      PolicyEntry "gdpr-s3-versioning-data-protection"
        "GDPR: S3 buckets must have versioning for data protection"
        gdpr_s3_versioning_for_data_protection
        ["GDPR"] "high" ["data-protection"; "versioning"];
      PolicyEntry "gdpr-data-encryption-in-transit"
        "GDPR: Data must be encrypted in transit"
        gdpr_data_encryption_in_transit
        ["GDPR"] "high" ["encryption-in-transit"; "data-protection"];
      PolicyEntry "nist-multi-factor-authentication"
        "NIST: IAM users should have MFA enabled"
        nist_multi_factor_authentication
        ["NIST Cybersecurity Framework"] "medium"
        ["access-control"; "multi-factor-authentication"];
      PolicyEntry "nist-network-segmentation"
        "NIST: Network access should be segmented"
        nist_network_segmentation
        ["NIST Cybersecurity Framework"] "high"
        ["network-security"; "segmentation"] ].

End CompliancePolicies.

(** ** The evaluator *)

Module Evaluator.
Import Py PulumiPolicy.

(** The resource descriptor of the specification: a type name and a
    properties mapping, as the validation functions receive it. *)
Definition resource (type_name : string) (props : dict) : ResourceValidationArgs :=
  mkArgs type_name [("props", VDict props)].

(** Modelled from the spec: the [Violation] of the data model, which the
    framework builds and the repository does not declare: the name of the
    rule it comes from, a message, and a severity. *)
Record Violation : Type := mkViolation {
  ruleName : string;
  violationMessage : string;
  severity : EnforcementLevel
}.

(** Modelled from the spec: the two errors that propagate to the caller
    of the missing evaluator.  A PackDefinitionError is a structural
    problem of the pack, an empty policy list or a duplicate rule name; a
    ConfigurationError names the offending option. *)
Inductive PackProblem : Type :=
| EmptyPolicyList
| DuplicateRuleName (name : string).

Inductive EvaluatorError : Type :=
| PackDefinitionError (problem : PackProblem)
| ConfigurationError (option_name : string).

(** Modelled from the spec: what the missing evaluator hands back, an
    error of the two kinds above or the sequence of violations. *)
Inductive Evaluation : Type :=
| Failed (error : EvaluatorError)
| Reported (violations : list Violation).

(** The [name] of an entry of a pack. *)
Definition rule_name (p : Policy) : string :=
  match p with
  | ResourceValidationPolicy name _ _
  | StackValidationPolicy name _ _
  | PolicyEntry name _ _ _ _ _ => name
  end.

(** Modelled from the spec: the first name that occurs twice, for the
    invariant that rule names are unique within a pack. *)
Fixpoint first_duplicate (names : list string) : option string :=
  match names with
  | [] => None
  | name :: rest =>
      if existsb (String.eqb name) rest then Some name
      else first_duplicate rest
  end.

(** Modelled from the spec: the check of the pack definition, missing
    from the repository.  A pack is malformed when its policy list is
    empty or two of its rules share a name. *)
Definition check_pack (pack : PolicyPack) : option PackProblem :=
  match pack_policies pack with
  | [] => Some EmptyPolicyList
  | policies =>
      option_map DuplicateRuleName (first_duplicate (map rule_name policies))
  end.

(** Modelled from the spec: a configuration value has the type its option
    declares; the options are strings, numbers and booleans. *)
Definition has_type (type_name : string) (v : value) : bool :=
  match v with
  | VStr _ => String.eqb type_name "string"
  | VInt _ => String.eqb type_name "number"
  | VBool _ => String.eqb type_name "boolean"
  | _ => false
  end.

(** Modelled from the spec: a configuration value is among the values its
    option allows, when the option lists any. *)
Definition in_allowed_values (property : ConfigProperty) (v : value) : bool :=
  match property_enum property with
  | [] => true
  | allowed =>
      match v with
      | VStr s => existsb (String.eqb s) allowed
      | _ => false
      end
  end.

Fixpoint schema_lookup (name : string) (schema : PolicyConfigSchema)
  : option ConfigProperty :=
  match schema with
  | [] => None
  | (option_name, property) :: rest =>
      if String.eqb option_name name then Some property
      else schema_lookup name rest
  end.

(** Modelled from the spec: the first entry of a configuration that
    violates the schema, because the schema does not know the option,
    because the value has the wrong type, or because it is out of the
    allowed values. *)
Fixpoint offending_entry (schema : PolicyConfigSchema) (config : dict)
  : option string :=
  match config with
  | [] => None
  | (name, v) :: rest =>
      match schema_lookup name schema with
      | None => Some name
      | Some property =>
          if (has_type (property_type property) v
              && in_allowed_values property v)%bool
          then offending_entry schema rest
          else Some name
      end
  end.

(** Modelled from the spec: the first option of the schema that the
    configuration gives no value. *)
Fixpoint missing_option (schema : PolicyConfigSchema) (config : dict)
  : option string :=
  match schema with
  | [] => None
  | (name, _) :: rest =>
      match lookup name config with
      | None => Some name
      | Some _ => missing_option rest config
      end
  end.

(** Modelled from the spec: the validation of the merged configuration
    against the schema of the pack, missing from the repository.  It
    gives the offending option, if there is one. *)
Definition validate_config (schema : PolicyConfigSchema) (config : dict)
  : option string :=
  match offending_entry schema config with
  | Some name => Some name
  | None => missing_option schema config
  end.

(** Modelled from the spec: the merged configuration, the defaults of the
    pack overridden by the values the caller supplies.  The options the
    caller supplies beyond the schema are kept, for the validation to
    find. *)
Definition merge_config (schema : PolicyConfigSchema) (supplied : dict) : dict :=
  (map (fun entry => (fst entry,
                      dict_get supplied (fst entry)
                               (property_default (snd entry)))) schema
   ++ filter (fun entry =>
                match schema_lookup (fst entry) schema with
                | None => true
                | Some _ => false
                end) supplied)%list.

(** Modelled from the spec: the violation that stands for a rule whose
    predicate raised, a single MANDATORY violation whose message
    identifies the rule as internally failed. *)
Definition fault (name : string) : Violation :=
  mkViolation name ("Policy " ++ name ++ " failed internally") MANDATORY.

(** Modelled from the spec: the violations of one rule of the missing
    evaluator.  The predicate of a rule of RESOURCE scope is invoked with
    the resource and the configuration; what it reports becomes the
    violations of the rule, and when it raises the fault is caught and
    becomes one more violation.  A rule of STACK scope is passed over. *)
Definition rule_violations (args : ResourceValidationArgs) (config : dict)
           (p : Policy) : list Violation :=
  match p with
  | ResourceValidationPolicy name _ validate
  | PolicyEntry name _ validate _ _ _ =>
      let outcome := run validate args config in
      let reported :=
        map (fun r => mkViolation name (message r) (level r)) (snd outcome) in
      match fst outcome with
      | Ok _ => reported
      | Raise _ => (reported ++ [fault name])%list
      end
  | StackValidationPolicy _ _ _ => []
  end.

(** The declaration indices of the rules of a pack, in declaration
    order. *)
Definition declaration_order (pack : PolicyPack) : list nat :=
  seq 0 (length (pack_policies pack)).

(** Modelled from the spec: the result of the rule declared at place
    [index], kept with its declaration index. *)
Definition completed (pack : PolicyPack) (args : ResourceValidationArgs)
           (config : dict) (index : nat) : nat * list Violation :=
  (index,
   match nth_error (pack_policies pack) index with
   | Some p => rule_violations args config p
   | None => []
   end).

(** Modelled from the spec: results are merged by declaration index after
    they are collected.  This is the sort, by insertion. *)
Fixpoint insert_by_index (r : nat * list Violation)
         (sorted : list (nat * list Violation)) : list (nat * list Violation) :=
  match sorted with
  | [] => [r]
  | r' :: rest =>
      if Nat.leb (fst r) (fst r') then r :: sorted
      else r' :: insert_by_index r rest
  end.

Fixpoint sort_by_index (results : list (nat * list Violation))
  : list (nat * list Violation) :=
  match results with
  | [] => []
  | r :: rest => insert_by_index r (sort_by_index rest)
  end.

(** One result comes no later than another in declaration order. *)
Definition by_index (a b : nat * list Violation) : Prop :=
  (fst a <= fst b)%nat.

(** Modelled from the spec: [evaluateResource], the operation of the
    evaluator missing from the repository, when the rule evaluations
    complete in the order [completion] (the specification lets an
    implementation run them concurrently).  A malformed pack or a
    malformed configuration fails before any rule runs; otherwise the
    results are collected in completion order, merged by declaration
    index, and their violations put in one sequence. *)
Definition evaluateResource_completing (completion : list nat)
           (pack : PolicyPack) (args : ResourceValidationArgs) (config : dict)
  : Evaluation :=
  match check_pack pack with
  | Some problem => Failed (PackDefinitionError problem)
  | None =>
      match validate_config (pack_config_schema pack) config with
      | Some option_name => Failed (ConfigurationError option_name)
      | None =>
          Reported
            (flat_map snd
               (sort_by_index (map (completed pack args config) completion)))
      end
  end.

(** Modelled from the spec: [evaluateResource(pack, resourceDescriptor,
    config)] run single-threaded, the rules completing in declaration
    order. *)
Definition evaluateResource (pack : PolicyPack) (args : ResourceValidationArgs)
           (config : dict) : Evaluation :=
  evaluateResource_completing (declaration_order pack) pack args config.

(** The validation function of a resource-scoped entry. *)
Definition resource_validate (p : Policy) : option ResourceValidate :=
  match p with
  | ResourceValidationPolicy _ _ validate
  | PolicyEntry _ _ validate _ _ _ => Some validate
  | StackValidationPolicy _ _ _ => None
  end.

(** The two packs of the repository, over a JSON decoder. *)
Definition repository_packs (json_loads : string -> option value)
  : list PolicyPack :=
  [Policies.policies json_loads; CompliancePolicies.compliance_policies].

End Evaluator.

(** ** The shape of the properties the policies read

    Every property is read with a default, so a missing entry is never an
    error.  An entry that is present is used at one type: these predicates
    say which. *)

Module Shape.
Import Py.

Definition is_dict (x : value) : bool :=
  match x with VDict _ => true | _ => false end.
Definition is_number (x : value) : bool :=
  match x with VInt _ | VBool _ => true | _ => false end.
Definition is_str (x : value) : bool :=
  match x with VStr _ => true | _ => false end.

(** The entry [key] of [d] is missing, or satisfies [p]. *)
Definition absent_or (p : value -> bool) (d : dict) (key : string) : bool :=
  match lookup key d with
  | None => true
  | Some v => p v
  end.

Definition dict_with (p : dict -> bool) (x : value) : bool :=
  match x with VDict d => p d | _ => false end.

Definition list_of (p : value -> bool) (x : value) : bool :=
  match x with VList l => forallb p l | _ => false end.

(** [rules] of an encryption configuration: empty, or a list of
    dictionaries whose default-encryption entry is a dictionary. *)
Definition encryption_rules (x : value) : bool :=
  (negb (truthy x) ||
   list_of (dict_with (fun rule =>
     absent_or is_dict rule "applyServerSideEncryptionByDefault")) x)%bool.

(** [environment] of a function: a dictionary whose [variables] are a
    dictionary. *)
Definition environment (x : value) : bool :=
  dict_with (fun env => absent_or is_dict env "variables") x.

(** [policy] of an IAM policy: anything but a string is skipped; a
    string that decodes must decode to an object whose [Statement] is
    one dictionary or a list of dictionaries. *)
Definition policy_document (json_loads : string -> option value)
           (x : value) : bool :=
  match x with
  | VStr doc =>
      if truthy x
      then match json_loads doc with
           | None => true
           | Some policy =>
               dict_with (fun p =>
                 absent_or (fun st => (is_dict st || list_of is_dict st)%bool)
                           p "Statement") policy
           end
      else true
  | _ => true
  end.

(** The properties mapping of a resource, for the rules of both packs. *)
Definition well_typed (json_loads : string -> option value)
           (props : dict) : bool :=
  (absent_or is_dict props "versioningConfiguration"
   && absent_or encryption_rules props "rules"
   && absent_or (policy_document json_loads) props "policy"
   && absent_or environment props "environment"
   && absent_or is_number props "timeout"
   && absent_or is_str props "protocol"
   && absent_or (list_of is_dict) props "ingressRules"
   && absent_or is_str props "name"
   && absent_or is_number props "backupRetentionPeriod")%bool.

End Shape.

(** ** The resource type each rule tests before anything else *)

Module Targets.
Import PulumiPolicy.

Definition policies_targets (json_loads : string -> option Py.value)
  : list (string * ResourceValidate) :=
  [ ("aws:s3/bucketPublicAccessBlock:BucketPublicAccessBlock",
     Policies.s3_bucket_public_access_block);
    ("aws:s3/bucketVersioningV2:BucketVersioningV2",
     Policies.s3_bucket_versioning_enabled);
    ("aws:s3/bucketServerSideEncryptionConfigurationV2:BucketServerSideEncryptionConfigurationV2",
     Policies.s3_bucket_encryption_required);
    ("aws:iam/policy:Policy", Policies.iam_policy_no_wildcard_actions json_loads);
    ("aws:iam/role:Role", Policies.iam_role_no_inline_policies);
    ("aws:lambda/function:Function", Policies.lambda_no_hardcoded_secrets);
    ("aws:lambda/function:Function", Policies.lambda_reasonable_timeout);
    ("aws:lb/listener:Listener", Policies.alb_listener_https_only);
    ("aws:ec2/securityGroup:SecurityGroup",
     Policies.security_group_no_unrestricted_ingress);
    ("aws:rds/instance:Instance", Policies.rds_instance_encrypted_storage);
    ("aws:rds/instance:Instance", Policies.rds_instance_not_publicly_accessible);
    ("aws:rds/instance:Instance", Policies.rds_instance_backup_retention) ].

Definition compliance_targets : list (string * ResourceValidate) :=
  [ ("aws:s3/bucketV2:BucketV2", CompliancePolicies.iso27001_s3_encryption_at_rest);
    ("aws:rds/instance:Instance", CompliancePolicies.iso27001_rds_encryption);
    ("aws:lb/listener:Listener", CompliancePolicies.pcidss_alb_https_only);
    ("aws:ec2/securityGroup:SecurityGroup",
     CompliancePolicies.pcidss_no_default_security_groups);
    ("aws:cloudtrail/trail:Trail", CompliancePolicies.hitrust_cloudtrail_enabled);
    ("aws:s3/bucketLoggingV2:BucketLoggingV2",
     CompliancePolicies.hitrust_s3_logging_enabled);
    ("aws:lambda/function:Function",
     CompliancePolicies.soc2_lambda_environment_encryption);
    ("aws:rds/instance:Instance", CompliancePolicies.soc2_rds_backup_retention);
    ("aws:s3/bucketVersioningV2:BucketVersioningV2",
     CompliancePolicies.gdpr_s3_versioning_for_data_protection);
    ("aws:lb/listener:Listener", CompliancePolicies.gdpr_data_encryption_in_transit);
    ("aws:iam/user:User", CompliancePolicies.nist_multi_factor_authentication);
    ("aws:ec2/securityGroup:SecurityGroup",
     CompliancePolicies.nist_network_segmentation) ].

Definition type_guarded_rules (json_loads : string -> option Py.value)
  : list (string * ResourceValidate) :=
  (policies_targets json_loads ++ compliance_targets)%list.

End Targets.

(** ** How a body may treat the report log *)

Module Behaviour.
Import Py PulumiPolicy.

(** [m] only appends to the log, and neither what it appends nor what it
    returns depends on the reports already there. *)
Definition Framed {A : Type} (m : M A) : Prop :=
  forall log, m log = (fst (m []), (log ++ snd (m []))%list).

(** [m] does not raise, whatever the log. *)
Definition Returns {A : Type} (m : M A) : Prop :=
  forall log, exists a, fst (m log) = Ok a.

(** The four flags of a public access block. *)
Definition block_flags : list string :=
  ["blockPublicAcls"; "blockPublicPolicy"; "ignorePublicAcls";
   "restrictPublicBuckets"].

(** The number of bucket resources of a stack, as the count limit takes
    it. *)
Definition bucket_count (stack : StackValidationArgs) : nat :=
  length (filter (fun r => String.eqb (resource_type r) "aws:s3/bucketV2:BucketV2")
                 (resources stack)).

End Behaviour.

(** ** What the rules report, in the terms of their own bodies *)

Module Observations.
Import Py PulumiPolicy.

(** Every report [m] leaves in the log satisfies [P], provided the
    reports already there do. *)
Definition Emits {A : Type} (P : Report -> Prop) (m : M A) : Prop :=
  forall log, Forall P log -> Forall P (snd (m log)).

(** [m] leaves the log as it is, or returns after adding one report. *)
Definition Single (m : M unit) : Prop :=
  forall log,
    snd (m log) = log \/ exists r, m log = (Ok tt, (log ++ [r])%list).

(** The [name] of an entry of a pack. *)
Definition policy_name (p : Policy) : string :=
  match p with
  | ResourceValidationPolicy name _ _
  | StackValidationPolicy name _ _
  | PolicyEntry name _ _ _ _ _ => name
  end.

(** The flags of a public access block that the rule finds not set, in the
    order it tests them. *)
Definition failing_flags (props : dict) : list string :=
  filter (fun flag => negb (truthy (dict_get props flag (VBool true))))
         Behaviour.block_flags.

(** The actions of one statement, as the IAM rule takes them: the list
    under [Action], or the single value there. *)
Definition statement_actions (statement : dict) : list value :=
  let actions := dict_get statement "Action" (VList []) in
  match actions with
  | VList l => l
  | other => [other]
  end.

(** The test the IAM rule applies to one action. *)
Definition overly_permissive (action : value) : bool :=
  (eq_str action "*" ||
   match action with
   | VStr a => str_contains "*:*" a
   | _ => false
   end)%bool.

(** An ingress rule open to every address. *)
Definition world_open (rule : dict) : bool :=
  eq_str (dict_get rule "cidrIpv4" (VStr "")) "0.0.0.0/0".

(** An ingress rule that starts at port 80 or 443. *)
Definition from_web_port (rule : dict) : bool :=
  (eq_int (dict_get rule "fromPort" (VInt 0)) 80
   || eq_int (dict_get rule "fromPort" (VInt 0)) 443)%bool.

(** An ingress rule the security-group rule reports: open to every
    address and not starting at a web port. *)
Definition ingress_flagged (rule : dict) : bool :=
  (world_open rule && negb (from_web_port rule))%bool.

(** The report the security-group rule makes for a flagged ingress rule. *)
Definition ingress_report (config : dict) (rule : dict) : Report :=
  if (eq_int (dict_get rule "fromPort" (VInt 0)) 0
      && eq_int (dict_get rule "toPort" (VInt 0)) 65535)%bool
  then mkReport
         "Security group allows unrestricted access on all ports from anywhere"
         MANDATORY
  else mkReport
         ("Security group allows unrestricted access on port "
          ++ str (dict_get rule "fromPort" (VInt 0)) ++ " from anywhere")
         (Policies.get_enforcement_level config).

(** An ingress rule the NIST segmentation entry reports. *)
Definition nist_flagged (rule : dict) : bool :=
  (world_open rule
   && (eq_int (dict_get rule "fromPort" (VInt 0)) 0
       && eq_int (dict_get rule "toPort" (VInt 65535)) 65535))%bool.

(** An encryption rule that names no algorithm. *)
Definition lacks_algorithm (rule : dict) : bool :=
  match dict_get rule "applyServerSideEncryptionByDefault" (VDict []) with
  | VDict apply_config => negb (truthy (dict_get apply_config "sseAlgorithm" VNone))
  | _ => false
  end.

(** A pattern that cannot tell a letter from its lower-case form. *)
Fixpoint case_blind (r : Re.regex) : Prop :=
  match r with
  | Re.Never | Re.Empty => True
  | Re.Class p => forall c, p (lower_char c) = p c
  | Re.Seq r s | Re.Alt r s => case_blind r /\ case_blind s
  | Re.Star r => case_blind r
  end.

(** The rules whose body makes a single check, without a loop. *)
Definition single_check_rules : list ResourceValidate :=
  [ Policies.s3_bucket_public_access_block;
    Policies.s3_bucket_versioning_enabled;
    Policies.iam_role_no_inline_policies;
    Policies.lambda_reasonable_timeout;
    Policies.alb_listener_https_only;
    Policies.rds_instance_encrypted_storage;
    Policies.rds_instance_not_publicly_accessible;
    Policies.rds_instance_backup_retention;
    CompliancePolicies.iso27001_s3_encryption_at_rest;
    CompliancePolicies.iso27001_rds_encryption;
    CompliancePolicies.pcidss_alb_https_only;
    CompliancePolicies.pcidss_no_default_security_groups;
    CompliancePolicies.hitrust_cloudtrail_enabled;
    CompliancePolicies.hitrust_s3_logging_enabled;
    CompliancePolicies.soc2_lambda_environment_encryption;
    CompliancePolicies.soc2_rds_backup_retention;
    CompliancePolicies.gdpr_s3_versioning_for_data_protection;
    CompliancePolicies.gdpr_data_encryption_in_transit;
    CompliancePolicies.nist_multi_factor_authentication ].

(** The rules of [policies] that report at a fixed MANDATORY level. *)
Definition always_mandatory_rules (json_loads : string -> option value)
  : list ResourceValidate :=
  [ Policies.iam_policy_no_wildcard_actions json_loads;
    Policies.lambda_no_hardcoded_secrets;
    Policies.rds_instance_not_publicly_accessible ].

(** The rules of [policies] that report at the configured level only. *)
Definition configurable_rules : list ResourceValidate :=
  [ Policies.s3_bucket_public_access_block;
    Policies.s3_bucket_versioning_enabled;
    Policies.s3_bucket_encryption_required;
    Policies.iam_role_no_inline_policies;
    Policies.lambda_reasonable_timeout;
    Policies.rds_instance_encrypted_storage;
    Policies.rds_instance_backup_retention ].

(** The validation functions of the compliance file. *)
Definition compliance_rules : list ResourceValidate :=
  map snd Targets.compliance_targets.

End Observations.

(** * Properties *)

Import Py PulumiPolicy Evaluator Behaviour Observations.
Local Open Scope policy_scope.

(** ** The report monad *)

Section MonadFacts.
Context {A B : Type}.

Lemma Framed_ret (a : A) : Framed (ret a).
Proof. intros log. unfold ret. simpl. now rewrite app_nil_r. Qed.

Lemma Framed_lift (r : result A) : Framed (lift r).
Proof. intros log. unfold lift. simpl. now rewrite app_nil_r. Qed.

Lemma Framed_bind (m : M A) (k : A -> M B) :
  Framed m -> (forall a, Framed (k a)) -> Framed (bind m k).
Proof.
  intros Hm Hk log. unfold bind.
  rewrite (Hm log). destruct (m []) as [[a | e] l1]; simpl.
  - rewrite (Hk a (log ++ l1)%list), (Hk a l1). simpl.
    now rewrite app_assoc.
  - reflexivity.
Qed.

Lemma Returns_ret (a : A) : Returns (ret a).
Proof. intros log. now exists a. Qed.

Lemma Returns_bind (m : M A) (k : A -> M B) :
  Returns m -> (forall a, Returns (k a)) -> Returns (bind m k).
Proof.
  intros Hm Hk log. unfold bind.
  destruct (Hm log) as [a Ha]. destruct (m log) as [r l1]. simpl in Ha.
  subst r. apply Hk.
Qed.

End MonadFacts.

Lemma Framed_report (msg : string) (lvl : EnforcementLevel) :
  Framed (report_violation msg lvl).
Proof. intros log. reflexivity. Qed.

Lemma Returns_report (msg : string) (lvl : EnforcementLevel) :
  Returns (report_violation msg lvl).
Proof. intros log. now exists tt. Qed.

Lemma Framed_when (b : bool) (m : M unit) : Framed m -> Framed (when b m).
Proof. destruct b; simpl; [auto | intros _; apply Framed_ret]. Qed.

Lemma Returns_when (b : bool) (m : M unit) : Returns m -> Returns (when b m).
Proof. destruct b; simpl; [auto | intros _; apply Returns_ret]. Qed.

Lemma Framed_for_each {A : Type} (l : list A) (body : A -> M unit) :
  (forall x, Framed (body x)) -> Framed (for_each l body).
Proof.
  intros Hbody. induction l as [| x rest IH]; simpl.
  - apply Framed_ret.
  - apply Framed_bind; auto.
Qed.

Lemma Returns_for_each {A : Type} (l : list A) (body : A -> M unit) :
  (forall x, In x l -> Returns (body x)) -> Returns (for_each l body).
Proof.
  induction l as [| x rest IH]; simpl; intros Hbody.
  - apply Returns_ret.
  - apply Returns_bind; auto.
Qed.

(** A body that does not raise returns [tt] when it is run on its own. *)
Lemma Returns_run {Args : Type}
      (validate : Args -> ReportViolation -> dict -> M unit)
      (args : Args) (config : dict) :
  Returns (validate args report_violation config) ->
  fst (run validate args config) = Ok tt.
Proof.
  intros H. unfold run. destruct (H []) as [[] Ha]. exact Ha.
Qed.


(** ** Reading properties *)

Lemma bind_lift_ok {A B : Type} (a : A) (k : A -> M B) :
  bind (lift (Ok a)) k = k a.
Proof. reflexivity. Qed.

Lemma dict_get_found (d : dict) (key : string) (default v : value) :
  lookup key d = Some v -> dict_get d key default = v.
Proof. unfold dict_get. now intros ->. Qed.

Lemma props_of_resource (type_name : string) (props : dict) :
  args_get (resource type_name props) "props" (VDict []) = VDict props.
Proof. reflexivity. Qed.

Lemma type_of_resource (type_name : string) (props : dict) :
  resource_type (resource type_name props) = type_name.
Proof. reflexivity. Qed.

(** ** Every rule of the repository is framed *)

Ltac framed_step :=
  lazymatch goal with
  | |- Framed (ret _) => apply Framed_ret
  | |- Framed (lift _) => apply Framed_lift
  | |- Framed (report_violation _ _) => apply Framed_report
  | |- Framed (when _ _) => apply Framed_when
  | |- Framed (bind _ _) => apply Framed_bind; [| intros ?]
  | |- Framed (for_each _ _) => apply Framed_for_each; intros ?
  | |- Framed (if ?b then _ else _) => destruct b
  | |- Framed (match ?x with _ => _ end) => destruct x
  end.

Ltac framed := cbv beta zeta; repeat (framed_step; cbv beta zeta).

Lemma rules_framed (json_loads : string -> option value)
      (target : string) (validate : ResourceValidate)
      (args : ResourceValidationArgs) (config : dict) :
  In (target, validate) (Targets.type_guarded_rules json_loads) ->
  Framed (validate args report_violation config).
Proof.
  unfold Targets.type_guarded_rules, Targets.policies_targets,
    Targets.compliance_targets.
  intros Hin. simpl in Hin.
  repeat (destruct Hin as [Heq | Hin];
          [injection Heq as _ <-;
           lazymatch goal with
           | |- Framed (?f _ _ _) =>
               let rec head t :=
                 lazymatch t with
                 | ?g _ => head g
                 | _ => t
                 end in
               let h := head f in unfold h
           end; framed |]).
  contradiction.
Qed.

(** ** The evaluator and the order in which rules complete *)

Lemma insert_by_index_Permutation (r : nat * list Violation)
      (l : list (nat * list Violation)) :
  Permutation (insert_by_index r l) (r :: l).
Proof.
  induction l as [| r' rest IH]; cbn [insert_by_index]; [reflexivity |].
  destruct (Nat.leb (fst r) (fst r')); [reflexivity |].
  rewrite IH. apply perm_swap.
Qed.

Lemma sort_by_index_Permutation (l : list (nat * list Violation)) :
  Permutation (sort_by_index l) l.
Proof.
  induction l as [| r rest IH]; cbn [sort_by_index]; [reflexivity |].
  rewrite insert_by_index_Permutation. now constructor.
Qed.

Lemma insert_by_index_sorted (r : nat * list Violation)
      (l : list (nat * list Violation)) :
  StronglySorted by_index l -> StronglySorted by_index (insert_by_index r l).
Proof.
  induction 1 as [| r' rest Hrest IH Hall]; cbn [insert_by_index].
  - repeat constructor.
  - destruct (Nat.leb_spec (fst r) (fst r')) as [Hle | Hgt].
    + constructor; [now constructor |].
      constructor; [exact Hle |].
      eapply Forall_impl; [| exact Hall].
      intros x Hx. unfold by_index in *. lia.
    + constructor; [exact IH |].
      eapply Permutation_Forall;
        [symmetry; apply insert_by_index_Permutation |].
      constructor; [unfold by_index; lia | exact Hall].
Qed.

Lemma sort_by_index_sorted (l : list (nat * list Violation)) :
  StronglySorted by_index (sort_by_index l).
Proof.
  induction l as [| r rest IH]; cbn [sort_by_index]; [constructor |].
  now apply insert_by_index_sorted.
Qed.

Lemma same_index_same_result (l : list (nat * list Violation))
      (a b : nat * list Violation) :
  NoDup (map fst l) -> In a l -> In b l -> fst a = fst b -> a = b.
Proof.
  induction l as [| x rest IH]; cbn [map In]; [contradiction |].
  intros Hnodup Ha Hb Heq. inversion Hnodup as [| k ks Hk Hks]; subst.
  destruct Ha as [-> | Ha]; destruct Hb as [-> | Hb].
  - reflexivity.
  - exfalso. apply Hk. rewrite Heq. now apply in_map.
  - exfalso. apply Hk. rewrite <- Heq. now apply in_map.
  - now apply IH.
Qed.

(** Two lists sorted by index that hold the same results, no two with the
    same index, are the same list. *)
Lemma sorted_by_index_unique (l l' : list (nat * list Violation)) :
  StronglySorted by_index l -> StronglySorted by_index l' ->
  NoDup (map fst l) -> Permutation l l' -> l = l'.
Proof.
  revert l'. induction l as [| a rest IH]; intros l' Hs Hs' Hnodup Hperm.
  - now apply Permutation_nil in Hperm.
  - destruct l' as [| b rest'].
    + symmetry in Hperm. now apply Permutation_nil in Hperm.
    + inversion Hs as [| ? ? Hrest Hall]; subst.
      inversion Hs' as [| ? ? Hrest' Hall']; subst.
      assert (Ha : In a (b :: rest'))
        by (eapply Permutation_in; [exact Hperm | now left]).
      assert (Hb : In b (a :: rest))
        by (eapply Permutation_in; [symmetry; exact Hperm | now left]).
      assert (Hab : a = b).
      { destruct Ha as [-> | Ha]; [reflexivity |].
        destruct Hb as [-> | Hb]; [reflexivity |].
        apply (same_index_same_result (a :: rest)); auto;
          [now left | now right |].
        pose proof (proj1 (Forall_forall _ _) Hall b Hb) as H1.
        pose proof (proj1 (Forall_forall _ _) Hall' a Ha) as H2.
        unfold by_index in *. lia. }
      subst b. f_equal.
      apply IH; auto.
      * now inversion Hnodup.
      * now apply Permutation_cons_inv in Hperm.
Qed.

Lemma declaration_order_sorted (f : nat -> nat * list Violation)
      (start len : nat) :
  (forall i, fst (f i) = i) ->
  StronglySorted by_index (map f (seq start len)).
Proof.
  intros Hf. revert start. induction len as [| len IH]; intros start;
    cbn [seq map]; constructor; [apply IH |].
  apply Forall_forall. intros x Hx. apply in_map_iff in Hx.
  destruct Hx as [i [<- Hi]]. apply in_seq in Hi.
  unfold by_index. rewrite !Hf. lia.
Qed.

(** Whatever the order in which the results arrive, merging them by
    declaration index gives the results in declaration order. *)
Lemma merge_by_declaration_index (f : nat -> nat * list Violation)
      (completion : list nat) (len : nat) :
  (forall i, fst (f i) = i) ->
  Permutation completion (seq 0 len) ->
  sort_by_index (map f completion) = map f (seq 0 len).
Proof.
  intros Hf Hperm. symmetry.
  assert (Hkeys : map fst (map f (seq 0 len)) = seq 0 len).
  { rewrite map_map. rewrite <- (map_id (seq 0 len)) at 2.
    apply map_ext. exact Hf. }
  apply sorted_by_index_unique.
  - now apply declaration_order_sorted.
  - apply sort_by_index_sorted.
  - rewrite Hkeys. apply seq_NoDup.
  - rewrite sort_by_index_Permutation. symmetry. now apply Permutation_map.
Qed.

Lemma nth_error_in_declaration_order {A : Type} (l : list A) :
  map (nth_error l) (seq 0 (length l)) = map Some l.
Proof.
  induction l as [| x rest IH]; [reflexivity |].
  cbn [length seq map nth_error]. f_equal.
  rewrite <- seq_shift, map_map. exact IH.
Qed.

Lemma results_in_declaration_order (pack : PolicyPack)
      (args : ResourceValidationArgs) (config : dict) :
  flat_map snd (map (completed pack args config) (declaration_order pack))
  = flat_map (rule_violations args config) (pack_policies pack).
Proof.
  unfold declaration_order, completed.
  rewrite flat_map_concat_map, map_map. cbn [snd].
  rewrite (flat_map_concat_map (rule_violations args config)). f_equal.
  change (fun x => match nth_error (pack_policies pack) x with
                   | Some p => rule_violations args config p
                   | None => []
                   end)
    with (fun x => (fun o => match o with
                             | Some p => rule_violations args config p
                             | None => []
                             end) (nth_error (pack_policies pack) x)).
  rewrite <- (map_map (nth_error (pack_policies pack))).
  rewrite nth_error_in_declaration_order, map_map. reflexivity.
Qed.



(** ** Rules and resource types *)

Ltac unfold_rule :=
  lazymatch goal with
  | |- run ?f _ _ = _ =>
      unfold run;
      let rec head t :=
        lazymatch t with
        | ?g _ => head g
        | _ => t
        end in
      let h := head f in unfold h
  end.

(** The table of targets covers every resource-scoped rule of the two
    packs. *)
Lemma pack_rules_have_targets (json_loads : string -> option value)
      (pack : PolicyPack) (p : Policy) (validate : ResourceValidate) :
  In pack (repository_packs json_loads) ->
  In p (pack_policies pack) ->
  resource_validate p = Some validate ->
  exists target, In (target, validate) (Targets.type_guarded_rules json_loads).
Proof.
  unfold Targets.type_guarded_rules, Targets.policies_targets,
    Targets.compliance_targets.
  intros [<- | [<- | []]] Hp; simpl in Hp;
    repeat (destruct Hp as [<- | Hp];
            [cbn [resource_validate]; intros Hv;
             first [discriminate Hv
                   | injection Hv as <-; eexists; cbn [app In];
                     repeat first [left; reflexivity | right]] |]);
    contradiction.
Qed.

(** C3.  Each rule of the two packs tests the resource type first: on a
    resource of any other type it reports nothing and does not raise,
    whatever the attributes and properties of the resource (missing,
    malformed or not even a mapping) and whatever the configuration. *)
Theorem unrelated_type_no_violations
        (json_loads : string -> option value)
        (target : string) (validate : ResourceValidate)
        (args : ResourceValidationArgs) (config : dict) :
  In (target, validate) (Targets.type_guarded_rules json_loads) ->
  resource_type args <> target ->
  run validate args config = (Ok tt, []).
Proof.
  intros Hin Hneq. apply String.eqb_neq in Hneq.
  unfold Targets.type_guarded_rules, Targets.policies_targets,
    Targets.compliance_targets in Hin.
  simpl in Hin.
  repeat (destruct Hin as [Heq | Hin];
          [injection Heq as <- <-; unfold_rule; rewrite Hneq;
           try reflexivity;
           match goal with
           | |- context [negb ?b] => destruct b; reflexivity
           end |]).
  contradiction.
Qed.

Lemma unrelated_type_no_violations_witness :
  In ("aws:lambda/function:Function", Policies.lambda_reasonable_timeout)
     (Targets.type_guarded_rules Json.decode) /\
  resource_type (resource "aws:lb/listener:Listener" [("timeout", VStr "soon")])
    <> "aws:lambda/function:Function" /\
  run Policies.lambda_reasonable_timeout
      (resource "aws:lb/listener:Listener" [("timeout", VStr "soon")]) []
  = (Ok tt, []).
Proof.
  split; [simpl; auto 10 |].
  split; [simpl; discriminate |].
  apply (unrelated_type_no_violations Json.decode "aws:lambda/function:Function").
  - simpl; auto 10.
  - simpl; discriminate.
Defined.

(** C9.  The S3 access-logging rule reports nothing and does not raise, on
    every resource (of its own target type or not, with any attributes)
    and under every configuration. *)
Theorem hitrust_s3_logging_enabled_noop
        (args : ResourceValidationArgs) (config : dict) :
  run CompliancePolicies.hitrust_s3_logging_enabled args config = (Ok tt, []).
Proof.
  unfold_rule.
  destruct (String.eqb (resource_type args) _); reflexivity.
Qed.

(** C10.  On every resource of the bucket type the ISO 27001
    encryption-at-rest rule reports exactly one violation, MANDATORY,
    whatever the attributes of the resource and the configuration. *)
Theorem iso27001_flags_every_bucket
        (args : ResourceValidationArgs) (config : dict) :
  resource_type args = "aws:s3/bucketV2:BucketV2" ->
  run CompliancePolicies.iso27001_s3_encryption_at_rest args config
  = (Ok tt,
     [mkReport
        "ISO 27001 Compliance: S3 bucket must have server-side encryption configured"
        MANDATORY]).
Proof.
  intros Htype. unfold_rule. rewrite Htype. reflexivity.
Qed.

Lemma iso27001_flags_every_bucket_witness :
  run CompliancePolicies.iso27001_s3_encryption_at_rest
      (resource "aws:s3/bucketV2:BucketV2"
         [("serverSideEncryptionConfiguration", VDict [("sseAlgorithm", VStr "AES256")])])
      [("enforcement-level", VStr "advisory")]
  = (Ok tt,
     [mkReport
        "ISO 27001 Compliance: S3 bucket must have server-side encryption configured"
        MANDATORY]).
Proof.
  apply iso27001_flags_every_bucket. reflexivity.
Defined.

(** ** Boundary scenarios *)

(** C6.  Let [N] be the limit the configuration gives for
    [max-s3-buckets] (the configured integer, or the default 5 when the
    option is not set).  A stack with exactly [N] bucket resources gets no
    violation from the count rule; a stack with [N + 1] gets exactly one,
    at the configured enforcement level. *)
Theorem s3_bucket_count_limit_boundary
        (stack : StackValidationArgs) (config : dict) (N : Z) :
  dict_get config "max-s3-buckets" (VInt 5) = VInt N ->
  (Z.of_nat (bucket_count stack) = N ->
   run Policies.s3_bucket_count_limit stack config = (Ok tt, [])) /\
  (Z.of_nat (bucket_count stack) = N + 1 ->
   run Policies.s3_bucket_count_limit stack config
   = (Ok tt,
      [mkReport
         ("Stack contains " ++ str_of_Z (N + 1)
          ++ " S3 buckets, which exceeds the limit of " ++ str_of_Z N)
         (Policies.get_enforcement_level config)])).
Proof.
  intros Hlimit.
  unfold run, Policies.s3_bucket_count_limit, str_of_nat.
  fold (bucket_count stack). rewrite Hlimit.
  split; intros ->; unfold bind, lift, int_gt, as_int.
  - rewrite Z.ltb_irrefl. reflexivity.
  - replace (N <? N + 1) with true by (symmetry; apply Z.ltb_lt; lia).
    reflexivity.
Qed.

Lemma s3_bucket_count_limit_boundary_witness :
  run Policies.s3_bucket_count_limit
      (mkStack [resource "aws:s3/bucketV2:BucketV2" [];
                resource "aws:iam/role:Role" [];
                resource "aws:s3/bucketV2:BucketV2" []])
      [("max-s3-buckets", VInt 2)]
  = (Ok tt, []) /\
  run Policies.s3_bucket_count_limit
      (mkStack [resource "aws:s3/bucketV2:BucketV2" [];
                resource "aws:s3/bucketV2:BucketV2" [];
                resource "aws:s3/bucketV2:BucketV2" []])
      [("max-s3-buckets", VInt 2)]
  = (Ok tt,
     [mkReport "Stack contains 3 S3 buckets, which exceeds the limit of 2"
               MANDATORY]).
Proof.
  split.
  - apply (s3_bucket_count_limit_boundary
             (mkStack [resource "aws:s3/bucketV2:BucketV2" [];
                       resource "aws:iam/role:Role" [];
                       resource "aws:s3/bucketV2:BucketV2" []])
             [("max-s3-buckets", VInt 2)] 2); reflexivity.
  - apply (s3_bucket_count_limit_boundary
             (mkStack [resource "aws:s3/bucketV2:BucketV2" [];
                       resource "aws:s3/bucketV2:BucketV2" [];
                       resource "aws:s3/bucketV2:BucketV2" []])
             [("max-s3-buckets", VInt 2)] 2); reflexivity.
Defined.

(** C7.  On a public-access-block resource whose four block flags are
    booleans: with all four true the rule reports nothing; with exactly
    one of them false it reports exactly one violation, whose message
    names that flag and none of the other three. *)
Theorem s3_public_access_block_boundary (props config : dict) :
  let args :=
    resource "aws:s3/bucketPublicAccessBlock:BucketPublicAccessBlock" props in
  ((forall flag, In flag block_flags -> lookup flag props = Some (VBool true)) ->
   run Policies.s3_bucket_public_access_block args config = (Ok tt, [])) /\
  (forall flag,
      In flag block_flags ->
      lookup flag props = Some (VBool false) ->
      (forall other, In other block_flags -> other <> flag ->
                     lookup other props = Some (VBool true)) ->
      exists msg,
        run Policies.s3_bucket_public_access_block args config
        = (Ok tt, [mkReport msg (Policies.get_enforcement_level config)]) /\
        str_contains flag msg = true /\
        (forall other, In other block_flags -> other <> flag ->
                       str_contains other msg = false)).
Proof.
  intros args. split.
  - intros Hall.
    unfold run, args, Policies.s3_bucket_public_access_block, resource,
      args_get, get, dict_get.
    simpl.
    rewrite !Hall by (simpl; auto). reflexivity.
  - intros flag Hflag Hfalse Hothers.
    assert (Hstate : forall other, In other block_flags ->
              lookup other props
              = Some (VBool (negb (String.eqb other flag)))).
    { intros other Hin. destruct (String.eqb_spec other flag) as [-> | Hne].
      - exact Hfalse.
      - now apply Hothers. }
    unfold run, args, Policies.s3_bucket_public_access_block, resource,
      args_get, get, dict_get.
    simpl.
    rewrite !Hstate by (simpl; auto).
    simpl in Hflag.
    destruct Hflag as [<- | [<- | [<- | [<- | []]]]]; simpl;
      (eexists; split; [reflexivity |]; split; [reflexivity |];
       intros other Hin Hne; simpl in Hin;
       destruct Hin as [<- | [<- | [<- | [<- | []]]]];
       solve [reflexivity | now elim Hne]).
Qed.

Lemma s3_public_access_block_boundary_witness :
  In "ignorePublicAcls" block_flags /\
  exists msg,
    run Policies.s3_bucket_public_access_block
        (resource "aws:s3/bucketPublicAccessBlock:BucketPublicAccessBlock"
           [("blockPublicAcls", VBool true); ("blockPublicPolicy", VBool true);
            ("ignorePublicAcls", VBool false);
            ("restrictPublicBuckets", VBool true)])
        []
    = (Ok tt, [mkReport msg (Policies.get_enforcement_level [])]) /\
    str_contains "ignorePublicAcls" msg = true /\
    (forall other, In other block_flags -> other <> "ignorePublicAcls" ->
                   str_contains other msg = false).
Proof.
  split; [simpl; auto |].
  apply (s3_public_access_block_boundary
           [("blockPublicAcls", VBool true); ("blockPublicPolicy", VBool true);
            ("ignorePublicAcls", VBool false);
            ("restrictPublicBuckets", VBool true)] []).
  - simpl; auto.
  - reflexivity.
  - intros other Hin Hne. simpl in Hin.
    destruct Hin as [<- | [<- | [<- | [<- | []]]]];
      solve [reflexivity | now elim Hne].
Defined.

(** C8.  With [require-https] set to false the HTTPS-only rule reports
    nothing, on every resource; with [require-https] true or left to its
    default, a listener whose protocol is HTTP (in any letter case) and
    whose port is any value other than 80 gets exactly one violation, at
    the configured enforcement level. *)
Theorem alb_listener_https_only_config
        (args : ResourceValidationArgs) (props config : dict)
        (protocol : string) (port : value) :
  (lookup "require-https" config = Some (VBool false) ->
   run Policies.alb_listener_https_only args config = (Ok tt, [])) /\
  (lookup "require-https" config = Some (VBool true) \/
   lookup "require-https" config = None ->
   lookup "protocol" props = Some (VStr protocol) ->
   str_upper protocol = "HTTP" ->
   lookup "port" props = Some port ->
   eq_int port 80 = false ->
   run Policies.alb_listener_https_only
       (resource "aws:lb/listener:Listener" props) config
   = (Ok tt,
      [mkReport
         ("Load balancer listener should use HTTPS instead of HTTP on port "
          ++ str port)
         (Policies.get_enforcement_level config)])).
Proof.
  split.
  - intros Hoff. unfold run, Policies.alb_listener_https_only, dict_get.
    rewrite Hoff. reflexivity.
  - intros Hon Hprotocol Hupper Hport Hne.
    unfold run, Policies.alb_listener_https_only, dict_get.
    replace (match lookup "require-https" config with
             | Some v => v
             | None => VBool true
             end) with (VBool true)
      by (destruct Hon as [-> | ->]; reflexivity).
    unfold resource, args_get, dict_get. simpl.
    unfold bind, lift, get, dict_get. rewrite Hprotocol, Hport. simpl.
    rewrite Hupper, Hne. reflexivity.
Qed.

Lemma alb_listener_https_only_config_witness :
  run Policies.alb_listener_https_only
      (resource "aws:lb/listener:Listener"
         [("protocol", VStr "HTTP"); ("port", VInt 8080)])
      [("require-https", VBool true)]
  = (Ok tt,
     [mkReport
        "Load balancer listener should use HTTPS instead of HTTP on port 8080"
        MANDATORY]).
Proof.
  apply (alb_listener_https_only_config
           (resource "aws:lb/listener:Listener" [])
           [("protocol", VStr "HTTP"); ("port", VInt 8080)]
           [("require-https", VBool true)] "HTTP" (VInt 8080));
    solve [reflexivity | left; reflexivity].
Defined.

(** ** The IAM wildcard rule *)

Lemma starts_with_wildcard (s : string) :
  starts_with "*:*" s = true -> starts_with "*" s = true.
Proof.
  destruct s as [| c rest]; cbn [starts_with]; [discriminate |].
  destruct (Ascii.eqb "*" c); [reflexivity | discriminate].
Qed.

Lemma contains_wildcard (s : string) :
  str_contains "*:*" s = true -> str_contains "*" s = true.
Proof.
  induction s as [| c rest IH]; intros H.
  - discriminate H.
  - cbn [str_contains] in *.
    apply orb_true_iff in H. apply orb_true_iff.
    destruct H as [H | H]; [left; now apply starts_with_wildcard | right; auto].
Qed.

(** An action name without any [*] passes the test of the rule. *)
Lemma explicit_action_passes (name : string) :
  str_contains "*" name = false ->
  (eq_str (VStr name) "*" || str_contains "*:*" name)%bool = false.
Proof.
  intros Hexplicit. apply orb_false_iff. split.
  - simpl. destruct (String.eqb_spec name "*") as [-> | _]; [| reflexivity].
    discriminate Hexplicit.
  - destruct (str_contains "*:*" name) eqn:H; [| reflexivity].
    apply contains_wildcard in H. congruence.
Qed.

Lemma explicit_actions_pass (report : ReportViolation) (names : list string)
      (log : list Report) :
  (forall name, In name names -> str_contains "*" name = false) ->
  for_each (map VStr names) (fun action =>
    when (eq_str action "*" ||
          match action with
          | VStr a => str_contains "*:*" a
          | _ => false
          end)%bool
         (report ("IAM policy contains overly permissive action: " ++ str action)
                 MANDATORY)) log
  = (Ok tt, log).
Proof.
  induction names as [| name rest IH]; intros Hexplicit.
  - reflexivity.
  - cbn [map for_each]. unfold bind at 1.
    rewrite explicit_action_passes by (apply Hexplicit; now left).
    cbn [when ret]. apply IH. intros n Hn. apply Hexplicit. now right.
Qed.

(** C4.  On an IAM-policy resource whose document decodes to an object
    with exactly one statement (given alone or in a one-element list): if
    the action of the statement is the single value [*] (given alone or in
    a one-element list) the rule reports exactly one violation, MANDATORY,
    whose message names the action [*]; if the actions are names without
    any [*] the rule reports nothing. *)
Theorem iam_wildcard_action_boundary
        (json_loads : string -> option value)
        (props config policy statement : dict) (doc : string)
        (names : list string) :
  lookup "policy" props = Some (VStr doc) ->
  doc <> "" ->
  json_loads doc = Some (VDict policy) ->
  lookup "Statement" policy = Some (VList [VDict statement]) \/
  lookup "Statement" policy = Some (VDict statement) ->
  (lookup "Action" statement = Some (VStr "*") \/
   lookup "Action" statement = Some (VList [VStr "*"]) ->
   run (Policies.iam_policy_no_wildcard_actions json_loads)
       (resource "aws:iam/policy:Policy" props) config
   = (Ok tt,
      [mkReport "IAM policy contains overly permissive action: *" MANDATORY]))
  /\
  (lookup "Action" statement = Some (VList (map VStr names)) \/
   (exists name, names = [name] /\
                 lookup "Action" statement = Some (VStr name)) ->
   (forall name, In name names -> str_contains "*" name = false) ->
   run (Policies.iam_policy_no_wildcard_actions json_loads)
       (resource "aws:iam/policy:Policy" props) config
   = (Ok tt, [])).
Proof.
  intros Hdoc Hnonempty Hdecode Hstatement.
  apply String.eqb_neq in Hnonempty.
  assert (Hrun :
    run (Policies.iam_policy_no_wildcard_actions json_loads)
        (resource "aws:iam/policy:Policy" props) config
    = bind (lift (get (VDict statement) "Action" (VList [])))
        (fun actions =>
           let actions := match actions with VList l => l | other => [other] end in
           for_each actions (fun action =>
             when (eq_str action "*" ||
                   match action with
                   | VStr a => str_contains "*:*" a
                   | _ => false
                   end)%bool
                  (report_violation
                     ("IAM policy contains overly permissive action: " ++ str action)
                     MANDATORY))) []).
  { unfold run, Policies.iam_policy_no_wildcard_actions.
    rewrite type_of_resource, String.eqb_refl, props_of_resource.
    cbn [get]. rewrite bind_lift_ok, (dict_get_found _ _ _ _ Hdoc).
    cbn [truthy]. rewrite Hnonempty. cbn [negb].
    rewrite Hdecode. cbn [get]. rewrite bind_lift_ok.
    destruct Hstatement as [H | H]; rewrite (dict_get_found _ _ _ _ H);
      cbn [for_each]; unfold bind at 1;
      destruct (bind _ _ []) as [[[] | e] log]; reflexivity. }
  rewrite Hrun. cbn [get]. rewrite bind_lift_ok. split.
  - intros [H | H]; rewrite (dict_get_found _ _ _ _ H); reflexivity.
  - intros [H | [name [-> H]]] Hexplicit;
      rewrite (dict_get_found _ _ _ _ H); cbv zeta.
    + now apply explicit_actions_pass.
    + apply (explicit_actions_pass report_violation [name] []). exact Hexplicit.
Qed.

Lemma iam_wildcard_action_boundary_witness :
  let q := String double_quote "" in
  let doc := "{" ++ q ++ "Statement" ++ q ++ ": [{" ++ q ++ "Effect" ++ q
             ++ ": " ++ q ++ "Allow" ++ q ++ ", " ++ q ++ "Action" ++ q
             ++ ": " ++ q ++ "*" ++ q ++ "}]}" in
  run (Policies.iam_policy_no_wildcard_actions Json.decode)
      (resource "aws:iam/policy:Policy" [("policy", VStr doc)]) []
  = (Ok tt,
     [mkReport "IAM policy contains overly permissive action: *" MANDATORY]).
Proof.
  intros q doc.
  apply (iam_wildcard_action_boundary Json.decode
           [("policy", VStr doc)] []
           [("Statement", VList [VDict [("Effect", VStr "Allow");
                                        ("Action", VStr "*")]])]
           [("Effect", VStr "Allow"); ("Action", VStr "*")]
           doc []).
  - reflexivity.
  - discriminate.
  - vm_compute. reflexivity.
  - left. reflexivity.
  - left. reflexivity.
Defined.




(** ** Malformed properties *)

Import Shape.

Lemma absent_or_dict_get (p : value -> bool) (d : dict) (key : string)
      (default : value) :
  absent_or p d key = true -> p default = true ->
  p (dict_get d key default) = true.
Proof. unfold absent_or, dict_get. destruct (lookup key d); auto. Qed.

Lemma forallb_In {A : Type} (p : A -> bool) (l : list A) (x : A) :
  forallb p l = true -> In x l -> p x = true.
Proof. intros H Hin. now apply (proj1 (forallb_forall p l) H). Qed.

Ltac returns_step :=
  lazymatch goal with
  | |- Returns (ret _) => apply Returns_ret
  | |- Returns (report_violation _ _) => apply Returns_report
  | |- Returns (when _ _) => apply Returns_when
  | |- Returns (bind (lift (Ok _)) _) => rewrite bind_lift_ok
  | |- Returns (bind (lift (get (VDict _) _ _)) _) => cbn [get]
  | |- Returns (bind (lift (iter (VList _))) _) => cbn [iter]
  | |- Returns (bind (lift (items (VDict _))) _) => cbn [items]
  | |- Returns (bind (lift (upper (VStr _))) _) => cbn [upper]
  | |- Returns (bind (lift (lower (VStr _))) _) => cbn [lower]
  | |- Returns (bind (lift _) _) => fail
  | |- Returns (bind _ _) => apply Returns_bind; [| intros ?]
  | |- Returns (if ?b then _ else _) => destruct b
  | |- Returns (match ?x with _ => _ end) => destruct x
  end.

Ltac returns := cbv beta zeta; repeat (returns_step; cbv beta zeta).

(** Use the shape [H] of an entry where the goal reads it. *)
Ltac typed_read H :=
  lazymatch type of H with
  | absent_or ?p ?d ?key = true =>
      lazymatch goal with
      | |- context [dict_get d key ?default] =>
          let Hv := fresh "Hv" in
          assert (Hv := absent_or_dict_get p d key default H eq_refl);
          revert Hv; destruct (dict_get d key default); intros Hv;
          try discriminate Hv
      end
  end.

(** Open a rule on a resource descriptor of its own type. *)
Ltac open_rule rule :=
  unfold rule; rewrite ?type_of_resource, ?props_of_resource;
  repeat lazymatch goal with
         | |- Returns (if negb ?b then _ else _) => destruct (negb b)
         | |- Returns (if String.eqb ?a ?b then _ else _) =>
             destruct (String.eqb a b)
         end;
  try lazymatch goal with |- Returns (ret _) => apply Returns_ret end.

Section WellTyped.
Variable json_loads : string -> option value.
Variables (type_name : string) (props config : dict).
Hypothesis Hshape : well_typed json_loads props = true.

Let args := resource type_name props.

Lemma well_typed_entries :
  absent_or is_dict props "versioningConfiguration" = true /\
  absent_or encryption_rules props "rules" = true /\
  absent_or (policy_document json_loads) props "policy" = true /\
  absent_or environment props "environment" = true /\
  absent_or is_number props "timeout" = true /\
  absent_or is_str props "protocol" = true /\
  absent_or (list_of is_dict) props "ingressRules" = true /\
  absent_or is_str props "name" = true /\
  absent_or is_number props "backupRetentionPeriod" = true.
Proof.
  unfold well_typed in Hshape.
  repeat (apply andb_true_iff in Hshape; destruct Hshape as [Hshape ?]).
  repeat split; assumption.
Qed.

Lemma s3_bucket_public_access_block_returns :
  Returns (Policies.s3_bucket_public_access_block args report_violation config).
Proof. subst args. open_rule Policies.s3_bucket_public_access_block. returns. Qed.

Lemma s3_bucket_versioning_enabled_returns :
  Returns (Policies.s3_bucket_versioning_enabled args report_violation config).
Proof.
  destruct well_typed_entries as (H & _).
  subst args. open_rule Policies.s3_bucket_versioning_enabled.
  returns. typed_read H. returns.
Qed.

Lemma encryption_rule_returns (rule : value) :
  dict_with (fun rule =>
    absent_or is_dict rule "applyServerSideEncryptionByDefault") rule = true ->
  Returns
    (apply_config <- lift (get rule "applyServerSideEncryptionByDefault" (VDict [])) ;;
     algorithm <- lift (get apply_config "sseAlgorithm" VNone) ;;
     when (negb (truthy algorithm))
          (report_violation
             "S3 bucket encryption rule must specify SSE algorithm"
             (Policies.get_enforcement_level config))).
Proof.
  destruct rule; try discriminate. cbn [dict_with]. intros H.
  returns. typed_read H. returns.
Qed.

Lemma s3_bucket_encryption_required_returns :
  Returns (Policies.s3_bucket_encryption_required args report_violation config).
Proof.
  destruct well_typed_entries as (_ & H & _).
  subst args. open_rule Policies.s3_bucket_encryption_required.
  do 2 returns_step. cbv beta.
  assert (Hv := absent_or_dict_get _ props "rules" (VList []) H eq_refl).
  unfold encryption_rules in Hv. revert Hv.
  generalize (dict_get props "rules" (VList [])) as rules. intros rules Hv.
  destruct (truthy rules) eqn:Htruthy; cbn [negb orb] in *.
  - destruct rules; try discriminate Hv.
    cbn [list_of] in Hv. returns_step.
    apply Returns_for_each. intros rule Hin.
    apply encryption_rule_returns. exact (forallb_In _ _ _ Hv Hin).
  - apply Returns_report.
Qed.

Lemma statement_returns (statement : value) :
  is_dict statement = true ->
  Returns
    (actions <- lift (get statement "Action" (VList [])) ;;
     let actions := match actions with VList l => l | other => [other] end in
     for_each actions (fun action =>
       when (eq_str action "*" ||
             match action with
             | VStr a => str_contains "*:*" a
             | _ => false
             end)%bool
            (report_violation
               ("IAM policy contains overly permissive action: " ++ str action)
               MANDATORY))).
Proof.
  destruct statement; try discriminate. intros _.
  returns. apply Returns_for_each. intros action _. returns.
Qed.

Lemma iam_policy_no_wildcard_actions_returns :
  Returns (Policies.iam_policy_no_wildcard_actions json_loads args
             report_violation config).
Proof.
  destruct well_typed_entries as (_ & _ & H & _).
  subst args. open_rule Policies.iam_policy_no_wildcard_actions.
  do 2 returns_step. cbv beta.
  assert (Hv := absent_or_dict_get _ props "policy" VNone H eq_refl).
  revert Hv. generalize (dict_get props "policy" VNone) as policy_doc.
  intros policy_doc Hv.
  destruct policy_doc as [| | | doc | |]; try apply Returns_ret.
  cbn [policy_document] in Hv.
  destruct (truthy (VStr doc)); [| apply Returns_ret].
  destruct (json_loads doc) as [policy |]; [| apply Returns_report].
  destruct policy as [| | | | | policy]; try discriminate Hv.
  cbn [dict_with] in Hv. returns.
  assert (Hst := absent_or_dict_get _ policy "Statement" (VList []) Hv eq_refl).
  cbv beta in Hst. revert Hst.
  generalize (dict_get policy "Statement" (VList [])) as statements.
  intros statements Hst. apply Returns_for_each. intros statement Hin.
  apply statement_returns.
  destruct statements as [| | | | l | d]; try discriminate Hst.
  - cbn [is_dict list_of orb] in Hst. exact (forallb_In _ _ _ Hst Hin).
  - destruct Hin as [<- | []]. reflexivity.
Qed.

Lemma iam_role_no_inline_policies_returns :
  Returns (Policies.iam_role_no_inline_policies args report_violation config).
Proof. subst args. open_rule Policies.iam_role_no_inline_policies. returns. Qed.

Lemma lambda_no_hardcoded_secrets_returns :
  Returns (Policies.lambda_no_hardcoded_secrets args report_violation config).
Proof.
  destruct well_typed_entries as (_ & _ & _ & H & _).
  subst args. open_rule Policies.lambda_no_hardcoded_secrets.
  returns. typed_read H. cbn [environment dict_with] in Hv.
  returns. typed_read Hv. returns.
  apply Returns_for_each. intros [var_name var_value] _.
  returns. apply Returns_for_each. intros pattern _. returns.
Qed.

Lemma lambda_reasonable_timeout_returns :
  Returns (Policies.lambda_reasonable_timeout args report_violation config).
Proof.
  destruct well_typed_entries as (_ & _ & _ & _ & H & _).
  subst args. open_rule Policies.lambda_reasonable_timeout.
  returns. typed_read H; unfold gt_int, as_int; returns.
Qed.

Lemma alb_listener_https_only_returns :
  Returns (Policies.alb_listener_https_only args report_violation config).
Proof.
  destruct well_typed_entries as (_ & _ & _ & _ & _ & H & _).
  subst args. open_rule Policies.alb_listener_https_only.
  returns. typed_read H. returns.
Qed.

Lemma ingress_rules_iterate (k : list value -> M unit) :
  (forall l, forallb is_dict l = true -> Returns (k l)) ->
  Returns (ingress_rules <- lift (get (VDict props) "ingressRules" (VList [])) ;;
           rule_list <- lift (iter ingress_rules) ;;
           k rule_list).
Proof.
  destruct well_typed_entries as (_ & _ & _ & _ & _ & _ & H & _).
  intros Hk. returns. typed_read H. returns. now apply Hk.
Qed.

Lemma security_group_no_unrestricted_ingress_returns :
  Returns (Policies.security_group_no_unrestricted_ingress args
             report_violation config).
Proof.
  subst args. open_rule Policies.security_group_no_unrestricted_ingress.
  apply ingress_rules_iterate. intros l Hl.
  apply Returns_for_each. intros rule Hin.
  assert (Hrule := forallb_In _ _ _ Hl Hin).
  destruct rule; try discriminate Hrule. returns.
Qed.

Lemma rds_instance_encrypted_storage_returns :
  Returns (Policies.rds_instance_encrypted_storage args report_violation config).
Proof. subst args. open_rule Policies.rds_instance_encrypted_storage. returns. Qed.

Lemma rds_instance_not_publicly_accessible_returns :
  Returns (Policies.rds_instance_not_publicly_accessible args
             report_violation config).
Proof.
  subst args. open_rule Policies.rds_instance_not_publicly_accessible. returns.
Qed.

Lemma rds_instance_backup_retention_returns :
  Returns (Policies.rds_instance_backup_retention args report_violation config).
Proof. subst args. open_rule Policies.rds_instance_backup_retention. returns. Qed.

Lemma iso27001_s3_encryption_at_rest_returns :
  Returns (CompliancePolicies.iso27001_s3_encryption_at_rest args
             report_violation config).
Proof.
  subst args. open_rule CompliancePolicies.iso27001_s3_encryption_at_rest.
  apply Returns_report.
Qed.

Lemma iso27001_rds_encryption_returns :
  Returns (CompliancePolicies.iso27001_rds_encryption args
             report_violation config).
Proof.
  subst args. open_rule CompliancePolicies.iso27001_rds_encryption. returns.
Qed.

Lemma pcidss_alb_https_only_returns :
  Returns (CompliancePolicies.pcidss_alb_https_only args
             report_violation config).
Proof.
  destruct well_typed_entries as (_ & _ & _ & _ & _ & H & _).
  subst args. open_rule CompliancePolicies.pcidss_alb_https_only.
  returns. typed_read H. returns.
Qed.

Lemma pcidss_no_default_security_groups_returns :
  Returns (CompliancePolicies.pcidss_no_default_security_groups args
             report_violation config).
Proof.
  destruct well_typed_entries as (_ & _ & _ & _ & _ & _ & _ & H & _).
  subst args. open_rule CompliancePolicies.pcidss_no_default_security_groups.
  returns. typed_read H. returns.
Qed.

Lemma hitrust_cloudtrail_enabled_returns :
  Returns (CompliancePolicies.hitrust_cloudtrail_enabled args
             report_violation config).
Proof.
  subst args. open_rule CompliancePolicies.hitrust_cloudtrail_enabled. returns.
Qed.

Lemma soc2_lambda_environment_encryption_returns :
  Returns (CompliancePolicies.soc2_lambda_environment_encryption args
             report_violation config).
Proof.
  destruct well_typed_entries as (_ & _ & _ & H & _).
  subst args. open_rule CompliancePolicies.soc2_lambda_environment_encryption.
  returns. typed_read H. returns.
Qed.

Lemma soc2_rds_backup_retention_returns :
  Returns (CompliancePolicies.soc2_rds_backup_retention args
             report_violation config).
Proof.
  destruct well_typed_entries as (_ & _ & _ & _ & _ & _ & _ & _ & H).
  subst args. open_rule CompliancePolicies.soc2_rds_backup_retention.
  returns. typed_read H; unfold lt_int, as_int; returns.
Qed.

Lemma gdpr_s3_versioning_for_data_protection_returns :
  Returns (CompliancePolicies.gdpr_s3_versioning_for_data_protection args
             report_violation config).
Proof.
  destruct well_typed_entries as (H & _).
  subst args.
  open_rule CompliancePolicies.gdpr_s3_versioning_for_data_protection.
  returns. typed_read H. returns.
Qed.

Lemma gdpr_data_encryption_in_transit_returns :
  Returns (CompliancePolicies.gdpr_data_encryption_in_transit args
             report_violation config).
Proof.
  destruct well_typed_entries as (_ & _ & _ & _ & _ & H & _).
  subst args. open_rule CompliancePolicies.gdpr_data_encryption_in_transit.
  returns. typed_read H. returns.
Qed.

Lemma nist_multi_factor_authentication_returns :
  Returns (CompliancePolicies.nist_multi_factor_authentication args
             report_violation config).
Proof.
  subst args. open_rule CompliancePolicies.nist_multi_factor_authentication.
  apply Returns_report.
Qed.

Lemma nist_network_segmentation_returns :
  Returns (CompliancePolicies.nist_network_segmentation args
             report_violation config).
Proof.
  subst args. open_rule CompliancePolicies.nist_network_segmentation.
  apply ingress_rules_iterate. intros l Hl.
  apply Returns_for_each. intros rule Hin.
  assert (Hrule := forallb_In _ _ _ Hl Hin).
  destruct rule; try discriminate Hrule. returns.
Qed.

(** Every resource-scoped rule of the two packs returns on a well-typed
    properties mapping. *)
Lemma pack_rules_return (pack : PolicyPack) (p : Policy)
      (validate : ResourceValidate) :
  In pack (repository_packs json_loads) ->
  In p (pack_policies pack) ->
  resource_validate p = Some validate ->
  Returns (validate args report_violation config).
Proof.
  intros [<- | [<- | []]] Hp; simpl in Hp;
    repeat (destruct Hp as [<- | Hp];
            [cbn [resource_validate]; intros Hv;
             first [discriminate Hv | injection Hv as <-] |]);
    try contradiction.
  - apply s3_bucket_public_access_block_returns.
  - apply s3_bucket_versioning_enabled_returns.
  - apply s3_bucket_encryption_required_returns.
  - apply iam_policy_no_wildcard_actions_returns.
  - apply iam_role_no_inline_policies_returns.
  - apply lambda_no_hardcoded_secrets_returns.
  - apply lambda_reasonable_timeout_returns.
  - apply alb_listener_https_only_returns.
  - apply security_group_no_unrestricted_ingress_returns.
  - apply rds_instance_encrypted_storage_returns.
  - apply rds_instance_not_publicly_accessible_returns.
  - apply rds_instance_backup_retention_returns.
  - apply iso27001_s3_encryption_at_rest_returns.
  - apply iso27001_rds_encryption_returns.
  - apply pcidss_alb_https_only_returns.
  - apply pcidss_no_default_security_groups_returns.
  - apply hitrust_cloudtrail_enabled_returns.
  - apply soc2_lambda_environment_encryption_returns.
  - apply soc2_rds_backup_retention_returns.
  - apply gdpr_s3_versioning_for_data_protection_returns.
  - apply gdpr_data_encryption_in_transit_returns.
  - apply nist_multi_factor_authentication_returns.
  - apply nist_network_segmentation_returns.
Qed.
End WellTyped.




(** The boundary is sharp for these two rules: a [timeout] that is present
    and not a number always makes the timeout rule raise, and with
    [require-https] on a [protocol] that is present and not a string always
    makes the HTTPS-only rule raise. *)
Lemma lambda_reasonable_timeout_raises (props config : dict) :
  absent_or is_number props "timeout" = false ->
  run Policies.lambda_reasonable_timeout
      (resource "aws:lambda/function:Function" props) config
  = (Raise TypeError, []).
Proof.
  unfold absent_or. intros H.
  unfold run, Policies.lambda_reasonable_timeout.
  rewrite type_of_resource, String.eqb_refl, props_of_resource.
  cbn [get]. rewrite bind_lift_ok. unfold dict_get.
  destruct (lookup "timeout" props) as [[| b | n | s | l | d] |];
    solve [discriminate H | reflexivity].
Qed.

Lemma alb_listener_https_only_raises (props config : dict) :
  truthy (dict_get config "require-https" (VBool true)) = true ->
  absent_or is_str props "protocol" = false ->
  run Policies.alb_listener_https_only
      (resource "aws:lb/listener:Listener" props) config
  = (Raise AttributeError, []).
Proof.
  unfold absent_or. intros Hon H.
  unfold run, Policies.alb_listener_https_only.
  rewrite Hon, type_of_resource, String.eqb_refl, props_of_resource.
  cbn [negb get]. rewrite !bind_lift_ok. unfold dict_get at 1.
  destruct (lookup "protocol" props) as [[| b | n | s | l | d] |];
    solve [discriminate H | reflexivity].
Qed.

(** ** The rules at work *)

Example secrets_in_environment :
  run Policies.lambda_no_hardcoded_secrets
      (resource "aws:lambda/function:Function"
         [("environment",
           VDict [("variables",
                   VDict [("DB_PASSWORD", VStr "hunter2hunter2");
                          ("STAGE", VStr "production");
                          ("RETRIES", VInt 3)])])])
      []
  = (Ok tt,
     [mkReport
        "Lambda function environment variable 'DB_PASSWORD' appears to contain a secret. Use AWS Secrets Manager or Parameter Store instead."
        MANDATORY;
      mkReport
        "Lambda function environment variable 'DB_PASSWORD' appears to contain a hardcoded secret"
        MANDATORY]).
Proof. vm_compute. reflexivity. Qed.

Example advisory_enforcement_level :
  run Policies.rds_instance_backup_retention
      (resource "aws:rds/instance:Instance" [])
      [("enforcement-level", VStr "advisory")]
  = (Ok tt,
     [mkReport
        "RDS instance should have backup retention period configured (non-zero)"
        ADVISORY]).
Proof. reflexivity. Qed.

Example open_security_group :
  run Policies.security_group_no_unrestricted_ingress
      (resource "aws:ec2/securityGroup:SecurityGroup"
         [("ingressRules",
           VList [VDict [("cidrIpv4", VStr "0.0.0.0/0"); ("fromPort", VInt 22);
                         ("toPort", VInt 22)];
                  VDict [("cidrIpv4", VStr "0.0.0.0/0"); ("fromPort", VInt 443);
                         ("toPort", VInt 443)];
                  VDict [("cidrIpv4", VStr "0.0.0.0/0"); ("toPort", VInt 65535)]])])
      []
  = (Ok tt,
     [mkReport "Security group allows unrestricted access on port 22 from anywhere"
               MANDATORY;
      mkReport "Security group allows unrestricted access on all ports from anywhere"
               MANDATORY]).
Proof. vm_compute. reflexivity. Qed.

(** A rule that raises is reported by the evaluator and does not stop the
    rules after it; a configuration value of the wrong type stops the
    evaluation before any rule runs. *)
Example evaluator_isolates_faults :
  evaluateResource (Policies.policies Json.decode)
    (resource "aws:lambda/function:Function"
       [("timeout", VStr "30");
        ("environment", VDict [("variables", VDict [("TOKEN", VStr "t")])])])
    (merge_config Policies.config_schema [])
  = Reported
      [mkViolation "lambda-no-hardcoded-secrets"
         "Lambda function environment variable 'TOKEN' appears to contain a secret. Use AWS Secrets Manager or Parameter Store instead."
         MANDATORY;
       mkViolation "lambda-reasonable-timeout"
         "Policy lambda-reasonable-timeout failed internally" MANDATORY].
Proof. vm_compute. reflexivity. Qed.

Example evaluator_rejects_configuration :
  evaluateResource (Policies.policies Json.decode)
    (resource "aws:lambda/function:Function" [])
    (merge_config Policies.config_schema [("max-s3-buckets", VStr "five")])
  = Failed (ConfigurationError "max-s3-buckets") /\
  evaluateResource (mkPack "empty" [] [])
    (resource "aws:lambda/function:Function" []) []
  = Failed (PackDefinitionError EmptyPolicyList).
Proof. split; vm_compute; reflexivity. Qed.

(** * Further properties of the rules *)

(** ** Thresholds and switches *)

(** X1.  The timeout rule reports exactly when an integer timeout exceeds
    300 seconds: 300 itself passes, and so does a function without a
    timeout, which counts as 3. *)
Theorem lambda_reasonable_timeout_threshold (props config : dict) (t : Z) :
  lookup "timeout" props = Some (VInt t) \/
  (lookup "timeout" props = None /\ t = 3) ->
  run Policies.lambda_reasonable_timeout
      (resource "aws:lambda/function:Function" props) config
  = (Ok tt,
     if 300 <? t
     then [mkReport
             ("Lambda function timeout (" ++ str_of_Z t
              ++ "s) is excessive. Consider if this is necessary.")
             (Policies.get_enforcement_level config)]
     else []).
Proof.
  intros H.
  assert (Hget : dict_get props "timeout" (VInt 3) = VInt t).
  { unfold dict_get. destruct H as [-> | [-> ->]]; reflexivity. }
  unfold run, Policies.lambda_reasonable_timeout.
  rewrite type_of_resource, String.eqb_refl, props_of_resource.
  cbn [get]. rewrite bind_lift_ok, Hget.
  cbn [gt_int as_int]. rewrite bind_lift_ok.
  destruct (300 <? t); reflexivity.
Qed.

Lemma lambda_reasonable_timeout_threshold_witness :
  run Policies.lambda_reasonable_timeout
      (resource "aws:lambda/function:Function" [("timeout", VInt 300)]) []
  = (Ok tt, []) /\
  run Policies.lambda_reasonable_timeout
      (resource "aws:lambda/function:Function" [("timeout", VInt 301)]) []
  = (Ok tt,
     [mkReport
        "Lambda function timeout (301s) is excessive. Consider if this is necessary."
        MANDATORY]).
Proof.
  split.
  - apply (lambda_reasonable_timeout_threshold [("timeout", VInt 300)] [] 300).
    left; reflexivity.
  - apply (lambda_reasonable_timeout_threshold [("timeout", VInt 301)] [] 301).
    left; reflexivity.
Defined.

(** X2.  With [require-https] on, a listener whose protocol is HTTP on
    port 80 (given, or left to the default) gets exactly one violation and
    it is ADVISORY whatever enforcement level is configured; a listener
    whose protocol is a string other than HTTP gets none. *)
Theorem alb_listener_port_80_advisory (props config : dict) (protocol : string) :
  truthy (dict_get config "require-https" (VBool true)) = true ->
  dict_get props "protocol" (VStr "") = VStr protocol ->
  (str_upper protocol = "HTTP" ->
   eq_int (dict_get props "port" (VInt 80)) 80 = true ->
   run Policies.alb_listener_https_only
       (resource "aws:lb/listener:Listener" props) config
   = (Ok tt,
      [mkReport
         "Load balancer listener uses HTTP on port 80. Consider implementing HTTPS redirect."
         ADVISORY])) /\
  (str_upper protocol <> "HTTP" ->
   run Policies.alb_listener_https_only
       (resource "aws:lb/listener:Listener" props) config
   = (Ok tt, [])).
Proof.
  intros Hon Hprotocol.
  assert (Hrun :
    run Policies.alb_listener_https_only
        (resource "aws:lb/listener:Listener" props) config
    = (if (String.eqb (str_upper protocol) "HTTP"
           && negb (eq_int (dict_get props "port" (VInt 80)) 80))%bool
       then report_violation
              ("Load balancer listener should use HTTPS instead of HTTP on port "
               ++ str (dict_get props "port" (VInt 80)))
              (Policies.get_enforcement_level config)
       else when (String.eqb (str_upper protocol) "HTTP"
                  && eq_int (dict_get props "port" (VInt 80)) 80)%bool
              (report_violation
                 "Load balancer listener uses HTTP on port 80. Consider implementing HTTPS redirect."
                 ADVISORY)) []).
  { unfold run, Policies.alb_listener_https_only.
    rewrite Hon, type_of_resource, String.eqb_refl, props_of_resource.
    cbn [negb get]. rewrite !bind_lift_ok, Hprotocol.
    cbn [upper]. rewrite bind_lift_ok.
    destruct (String.eqb (str_upper protocol) "HTTP"
              && negb (eq_int (dict_get props "port" (VInt 80)) 80))%bool;
      [reflexivity | now rewrite bind_lift_ok]. }
  rewrite Hrun. split.
  - intros -> ->. reflexivity.
  - intros Hne. apply String.eqb_neq in Hne. rewrite Hne. reflexivity.
Qed.

Lemma alb_listener_port_80_advisory_witness :
  run Policies.alb_listener_https_only
      (resource "aws:lb/listener:Listener" [("protocol", VStr "http")])
      [("enforcement-level", VStr "mandatory")]
  = (Ok tt,
     [mkReport
        "Load balancer listener uses HTTP on port 80. Consider implementing HTTPS redirect."
        ADVISORY]).
Proof.
  apply (alb_listener_port_80_advisory [("protocol", VStr "http")]
           [("enforcement-level", VStr "mandatory")] "http");
    reflexivity.
Defined.

(** X3.  One switch governs two rules: when [require-encryption] holds any
    false value, neither the S3 encryption rule nor the RDS storage rule
    reports or raises, on any resource whatever its type and properties. *)
Theorem require_encryption_off (args : ResourceValidationArgs) (config : dict) :
  truthy (dict_get config "require-encryption" (VBool true)) = false ->
  run Policies.s3_bucket_encryption_required args config = (Ok tt, []) /\
  run Policies.rds_instance_encrypted_storage args config = (Ok tt, []).
Proof.
  intros Hoff.
  unfold run, Policies.s3_bucket_encryption_required,
    Policies.rds_instance_encrypted_storage.
  rewrite Hoff. split; reflexivity.
Qed.

Lemma require_encryption_off_witness :
  run Policies.s3_bucket_encryption_required
      (resource
         "aws:s3/bucketServerSideEncryptionConfigurationV2:BucketServerSideEncryptionConfigurationV2"
         [("rules", VInt 7)])
      [("require-encryption", VInt 0)]
  = (Ok tt, []) /\
  run Policies.rds_instance_encrypted_storage
      (resource
         "aws:s3/bucketServerSideEncryptionConfigurationV2:BucketServerSideEncryptionConfigurationV2"
         [("rules", VInt 7)])
      [("require-encryption", VInt 0)]
  = (Ok tt, []).
Proof.
  apply require_encryption_off. reflexivity.
Defined.

(** X4.  The public access block rule reports at most once, and its one
    message lists exactly the flags that are set to a false value, in the
    order blockPublicAcls, blockPublicPolicy, ignorePublicAcls,
    restrictPublicBuckets; a flag that is missing counts as set. *)
Theorem s3_public_access_block_message (props config : dict) :
  run Policies.s3_bucket_public_access_block
      (resource "aws:s3/bucketPublicAccessBlock:BucketPublicAccessBlock" props)
      config
  = (Ok tt,
     match failing_flags props with
     | [] => []
     | flags =>
         [mkReport
            ("S3 bucket public access block violations: "
             ++ join ", " (map (fun flag => flag ++ " should be true") flags))
            (Policies.get_enforcement_level config)]
     end).
Proof.
  unfold run, Policies.s3_bucket_public_access_block, failing_flags, block_flags.
  rewrite type_of_resource, String.eqb_refl, props_of_resource.
  cbn [get filter]. rewrite !bind_lift_ok.
  destruct (negb (truthy (dict_get props "blockPublicAcls" (VBool true))));
    destruct (negb (truthy (dict_get props "blockPublicPolicy" (VBool true))));
    destruct (negb (truthy (dict_get props "ignorePublicAcls" (VBool true))));
    destruct (negb (truthy (dict_get props "restrictPublicBuckets" (VBool true))));
    reflexivity.
Qed.

(** ** Severities *)

Section EmitsFacts.
Context {A B : Type}.
Variable P : Report -> Prop.

Lemma Emits_ret (a : A) : Emits P (ret a).
Proof. intros log H. exact H. Qed.

Lemma Emits_lift (r : result A) : Emits P (lift r).
Proof. intros log H. exact H. Qed.

Lemma Emits_bind (m : M A) (k : A -> M B) :
  Emits P m -> (forall a, Emits P (k a)) -> Emits P (bind m k).
Proof.
  intros Hm Hk log H. unfold bind.
  specialize (Hm log H). destruct (m log) as [[a | e] log']; simpl in Hm.
  - now apply Hk.
  - exact Hm.
Qed.

End EmitsFacts.

Lemma Emits_report (P : Report -> Prop) (msg : string) (lvl : EnforcementLevel) :
  P (mkReport msg lvl) -> Emits P (report_violation msg lvl).
Proof.
  intros Hr log H. unfold report_violation. simpl.
  apply Forall_app. split; [exact H | now constructor].
Qed.

Lemma Emits_when (P : Report -> Prop) (b : bool) (m : M unit) :
  Emits P m -> Emits P (when b m).
Proof. destruct b; simpl; [auto | intros _; apply Emits_ret]. Qed.

Lemma Emits_for_each {A : Type} (P : Report -> Prop) (l : list A)
      (body : A -> M unit) :
  (forall x, Emits P (body x)) -> Emits P (for_each l body).
Proof.
  intros Hbody. induction l as [| x rest IH]; simpl.
  - apply Emits_ret.
  - apply Emits_bind; auto.
Qed.

Lemma Emits_run {Args : Type} (P : Report -> Prop)
      (validate : Args -> ReportViolation -> dict -> M unit)
      (args : Args) (config : dict) :
  Emits P (validate args report_violation config) ->
  Forall P (snd (run validate args config)).
Proof. intros H. apply H. constructor. Qed.

Ltac emits_step :=
  lazymatch goal with
  | |- Emits _ (ret _) => apply Emits_ret
  | |- Emits _ (lift _) => apply Emits_lift
  | |- Emits _ (report_violation _ _) =>
      apply Emits_report; solve [reflexivity | assumption]
  | |- Emits _ (when _ _) => apply Emits_when
  | |- Emits _ (bind _ _) => apply Emits_bind; [| intros ?]
  | |- Emits _ (for_each _ _) => apply Emits_for_each; intros ?
  | |- Emits _ (if ?b then _ else _) => destruct b
  | |- Emits _ (match ?x with _ => _ end) => destruct x
  end.

Ltac emits := cbv beta zeta; repeat (emits_step; cbv beta zeta).

Ltac unfold_head f :=
  let rec head t :=
    lazymatch t with
    | ?g _ => head g
    | _ => t
    end in
  let h := head f in unfold h.

(** X5.  The enforcement level of the configuration never reaches three
    rules of [policies]: whatever the resource and the configuration,
    every violation of the IAM wildcard rule, of the hardcoded-secrets rule
    and of the public-RDS rule is MANDATORY. *)
Theorem fixed_mandatory_rules
        (json_loads : string -> option value) (validate : ResourceValidate)
        (args : ResourceValidationArgs) (config : dict) :
  In validate (always_mandatory_rules json_loads) ->
  Forall (fun r => level r = MANDATORY) (snd (run validate args config)).
Proof.
  intros Hin. apply Emits_run. simpl in Hin.
  destruct Hin as [<- | [<- | [<- | []]]].
  - unfold Policies.iam_policy_no_wildcard_actions. emits.
  - unfold Policies.lambda_no_hardcoded_secrets. emits.
  - unfold Policies.rds_instance_not_publicly_accessible. emits.
Qed.

Lemma fixed_mandatory_rules_witness :
  Forall (fun r => level r = MANDATORY)
    (snd (run Policies.rds_instance_not_publicly_accessible
            (resource "aws:rds/instance:Instance"
               [("publiclyAccessible", VBool true)])
            [("enforcement-level", VStr "advisory")])).
Proof.
  apply (fixed_mandatory_rules Json.decode). simpl; auto.
Defined.

(** X6.  Seven rules of [policies] report at the configured level and at
    no other: every violation of the public access block, versioning,
    encryption, inline-policy, timeout, RDS storage and RDS backup rules
    carries the level [get_enforcement_level] reads from the
    configuration. *)
Theorem configurable_rules_level
        (validate : ResourceValidate)
        (args : ResourceValidationArgs) (config : dict) :
  In validate configurable_rules ->
  Forall (fun r => level r = Policies.get_enforcement_level config)
         (snd (run validate args config)).
Proof.
  intros Hin. apply Emits_run. simpl in Hin.
  repeat (destruct Hin as [<- | Hin];
          [lazymatch goal with
           | |- Emits _ (?f _ _ _) => unfold_head f
           end; emits |]).
  contradiction.
Qed.

Lemma configurable_rules_level_witness :
  Forall (fun r => level r
                   = Policies.get_enforcement_level
                       [("enforcement-level", VStr "advisory")])
    (snd (run Policies.s3_bucket_versioning_enabled
            (resource "aws:s3/bucketVersioningV2:BucketVersioningV2" [])
            [("enforcement-level", VStr "advisory")])).
Proof.
  apply configurable_rules_level. simpl; auto.
Defined.

(** X7.  The compliance pack reports at fixed levels: whatever the
    resource and the configuration, every violation of an entry is
    MANDATORY, except those of the multi-factor entry, which are
    ADVISORY. *)
Theorem compliance_levels
        (p : Policy) (validate : ResourceValidate)
        (args : ResourceValidationArgs) (config : dict) :
  In p (pack_policies CompliancePolicies.compliance_policies) ->
  resource_validate p = Some validate ->
  Forall (fun r =>
            level r
            = if String.eqb (policy_name p) "nist-multi-factor-authentication"
              then ADVISORY else MANDATORY)
         (snd (run validate args config)).
Proof.
  intros Hin Hvalidate. apply Emits_run. simpl in Hin.
  repeat (destruct Hin as [<- | Hin];
          [cbn [resource_validate] in Hvalidate;
           injection Hvalidate as <-;
           lazymatch goal with
           | |- Emits _ (?f _ _ _) => unfold_head f
           end; emits |]).
  contradiction.
Qed.

Lemma compliance_levels_witness :
  Forall (fun r => level r = ADVISORY)
    (snd (run CompliancePolicies.nist_multi_factor_authentication
            (resource "aws:iam/user:User" []) [])).
Proof.
  apply (compliance_levels
           (PolicyEntry "nist-multi-factor-authentication"
              "NIST: IAM users should have MFA enabled"
              CompliancePolicies.nist_multi_factor_authentication
              ["NIST Cybersecurity Framework"] "medium"
              ["access-control"; "multi-factor-authentication"])).
  - simpl; auto 12.
  - reflexivity.
Defined.

(** X8.  No function of the compliance file reads the configuration: two
    evaluations of the same function on the same resource under any two
    configurations have the same outcome and the same reports, so neither
    [enforcement-level] nor [require-https] nor [require-encryption] has
    any effect on the compliance pack. *)
Theorem compliance_ignores_configuration
        (validate : ResourceValidate) (args : ResourceValidationArgs)
        (config config' : dict) :
  In validate compliance_rules ->
  run validate args config = run validate args config'.
Proof.
  intros Hin. unfold compliance_rules, Targets.compliance_targets in Hin.
  simpl in Hin.
  repeat (destruct Hin as [<- | Hin]; [reflexivity |]).
  contradiction.
Qed.

Lemma compliance_ignores_configuration_witness :
  run CompliancePolicies.gdpr_data_encryption_in_transit
      (resource "aws:lb/listener:Listener"
         [("protocol", VStr "HTTP"); ("port", VInt 8080)])
      [("require-https", VBool false); ("enforcement-level", VStr "advisory")]
  = run CompliancePolicies.gdpr_data_encryption_in_transit
      (resource "aws:lb/listener:Listener"
         [("protocol", VStr "HTTP"); ("port", VInt 8080)])
      [].
Proof.
  apply compliance_ignores_configuration. simpl; auto 12.
Defined.

(** ** How many reports a rule makes *)

Lemma Single_ret : Single (ret tt).
Proof. intros log. now left. Qed.

Lemma Single_report (msg : string) (lvl : EnforcementLevel) :
  Single (report_violation msg lvl).
Proof. intros log. right. now exists (mkReport msg lvl). Qed.

Lemma Single_when (b : bool) (m : M unit) : Single m -> Single (when b m).
Proof. destruct b; simpl; [auto | intros _; apply Single_ret]. Qed.

Lemma Single_bind_lift {A : Type} (r : result A) (k : A -> M unit) :
  (forall a, Single (k a)) -> Single (bind (lift r) k).
Proof.
  intros Hk log. unfold bind, lift. destruct r as [a | e].
  - apply Hk.
  - now left.
Qed.

Ltac single_step :=
  lazymatch goal with
  | |- Single (ret tt) => apply Single_ret
  | |- Single (report_violation _ _) => apply Single_report
  | |- Single (when _ _) => apply Single_when
  | |- Single (bind (lift _) _) => apply Single_bind_lift; intros ?
  | |- Single (if ?b then _ else _) => destruct b
  | |- Single (match ?x with _ => _ end) => destruct x
  end.

Ltac single := cbv beta zeta; repeat (single_step; cbv beta zeta).

(** X9.  A rule that makes a single check reports at most one violation
    per resource, and when it raises it has reported nothing.  This holds
    for every rule of the two files but the five that loop over rules,
    statements, variables or ingress rules. *)
Theorem single_check_rules_report_once
        (validate : ResourceValidate)
        (args : ResourceValidationArgs) (config : dict) :
  In validate single_check_rules ->
  (length (snd (run validate args config)) <= 1)%nat /\
  (forall e, fst (run validate args config) = Raise e ->
             snd (run validate args config) = []).
Proof.
  intros Hin.
  assert (H : Single (validate args report_violation config)).
  { simpl in Hin.
    repeat (destruct Hin as [<- | Hin];
            [lazymatch goal with
             | |- Single (?f _ _ _) => unfold_head f
             end; single |]).
    contradiction. }
  unfold run. destruct (H []) as [Hquiet | [r Hr]].
  - rewrite Hquiet. split; [simpl; lia | reflexivity].
  - rewrite Hr. split; [simpl; lia | discriminate].
Qed.

Lemma single_check_rules_report_once_witness :
  (length (snd (run Policies.s3_bucket_public_access_block
                  (resource "aws:s3/bucketPublicAccessBlock:BucketPublicAccessBlock"
                     [("blockPublicAcls", VBool false);
                      ("blockPublicPolicy", VBool false);
                      ("ignorePublicAcls", VBool false)])
                  [])) <= 1)%nat /\
  (forall e,
      fst (run Policies.s3_bucket_public_access_block
             (resource "aws:s3/bucketPublicAccessBlock:BucketPublicAccessBlock"
                [("blockPublicAcls", VBool false);
                 ("blockPublicPolicy", VBool false);
                 ("ignorePublicAcls", VBool false)])
             []) = Raise e ->
      snd (run Policies.s3_bucket_public_access_block
             (resource "aws:s3/bucketPublicAccessBlock:BucketPublicAccessBlock"
                [("blockPublicAcls", VBool false);
                 ("blockPublicPolicy", VBool false);
                 ("ignorePublicAcls", VBool false)])
             []) = []).
Proof.
  apply single_check_rules_report_once. simpl; auto.
Defined.

(** ** The IAM rule on whole documents *)

Lemma actions_reported (actions : list value) (log : list Report) :
  for_each actions (fun action =>
    when (eq_str action "*" ||
          match action with
          | VStr a => str_contains "*:*" a
          | _ => false
          end)%bool
         (report_violation
            ("IAM policy contains overly permissive action: " ++ str action)
            MANDATORY)) log
  = (Ok tt,
     (log ++ map (fun action =>
                    mkReport ("IAM policy contains overly permissive action: "
                              ++ str action) MANDATORY)
                 (filter overly_permissive actions))%list).
Proof.
  revert log. induction actions as [| action rest IH]; intros log.
  - cbn [for_each filter map ret]. now rewrite app_nil_r.
  - cbn [for_each filter]. unfold bind at 1.
    fold (overly_permissive action).
    destruct (overly_permissive action); cbn [when report_violation ret map].
    + rewrite IH, <- app_assoc. reflexivity.
    + apply IH.
Qed.

Lemma statements_reported (statements : list dict) (log : list Report) :
  for_each (map VDict statements) (fun statement =>
    actions <- lift (get statement "Action" (VList [])) ;;
    let actions := match actions with VList l => l | other => [other] end in
    for_each actions (fun action =>
      when (eq_str action "*" ||
            match action with
            | VStr a => str_contains "*:*" a
            | _ => false
            end)%bool
           (report_violation
              ("IAM policy contains overly permissive action: " ++ str action)
              MANDATORY))) log
  = (Ok tt,
     (log ++ map (fun action =>
                    mkReport ("IAM policy contains overly permissive action: "
                              ++ str action) MANDATORY)
                 (filter overly_permissive
                         (flat_map statement_actions statements)))%list).
Proof.
  revert log. induction statements as [| statement rest IH]; intros log.
  - cbn [map for_each flat_map filter ret]. now rewrite app_nil_r.
  - cbn [map for_each flat_map]. unfold bind at 1.
    cbn [get]. rewrite bind_lift_ok. cbv zeta.
    rewrite actions_reported, IH, filter_app, map_app, <- app_assoc.
    reflexivity.
Qed.

(** X10.  On a policy document that decodes to an object whose statements
    are dictionaries (one alone, or a list of them), the IAM rule reports
    one MANDATORY violation for each action that is [*] or contains [*:*],
    in the order of the document, each naming its action; every other
    action, a service wildcard such as [s3:*] included, passes. *)
Theorem iam_reports_each_wildcard
        (json_loads : string -> option value)
        (props config policy : dict) (doc : string) (statements : list dict) :
  lookup "policy" props = Some (VStr doc) ->
  doc <> "" ->
  json_loads doc = Some (VDict policy) ->
  dict_get policy "Statement" (VList []) = VList (map VDict statements) \/
  (exists statement, statements = [statement] /\
                     dict_get policy "Statement" (VList []) = VDict statement) ->
  run (Policies.iam_policy_no_wildcard_actions json_loads)
      (resource "aws:iam/policy:Policy" props) config
  = (Ok tt,
     map (fun action =>
            mkReport ("IAM policy contains overly permissive action: "
                      ++ str action) MANDATORY)
         (filter overly_permissive (flat_map statement_actions statements))).
Proof.
  intros Hdoc Hnonempty Hdecode Hstatements.
  apply String.eqb_neq in Hnonempty.
  unfold run, Policies.iam_policy_no_wildcard_actions.
  rewrite type_of_resource, String.eqb_refl, props_of_resource.
  cbn [get]. rewrite bind_lift_ok, (dict_get_found _ _ _ _ Hdoc).
  cbn [truthy]. rewrite Hnonempty. cbn [negb].
  rewrite Hdecode. cbn [get]. rewrite bind_lift_ok.
  destruct Hstatements as [-> | [statement [-> ->]]]; cbv zeta.
  - apply (statements_reported statements []).
  - apply (statements_reported [statement] []).
Qed.

Lemma iam_reports_each_wildcard_witness :
  let q := String double_quote "" in
  let doc := "{" ++ q ++ "Statement" ++ q ++ ": [{" ++ q ++ "Action" ++ q
             ++ ": [" ++ q ++ "s3:*" ++ q ++ ", " ++ q ++ "*" ++ q ++ "]}, {"
             ++ q ++ "Action" ++ q ++ ": " ++ q ++ "iam:*:*" ++ q ++ "}]}" in
  run (Policies.iam_policy_no_wildcard_actions Json.decode)
      (resource "aws:iam/policy:Policy" [("policy", VStr doc)]) []
  = (Ok tt,
     [mkReport "IAM policy contains overly permissive action: *" MANDATORY;
      mkReport "IAM policy contains overly permissive action: iam:*:*" MANDATORY]).
Proof.
  intros q doc.
  apply (iam_reports_each_wildcard Json.decode
           [("policy", VStr doc)] []
           [("Statement",
             VList [VDict [("Action", VList [VStr "s3:*"; VStr "*"])];
                    VDict [("Action", VStr "iam:*:*")]])]
           doc
           [[("Action", VList [VStr "s3:*"; VStr "*"])];
            [("Action", VStr "iam:*:*")]]).
  - reflexivity.
  - discriminate.
  - vm_compute. reflexivity.
  - left. reflexivity.
Defined.

(** X11.  A policy document that is valid JSON but not an object (a list,
    a string, a number, [true], [null]) is not reported as invalid: the
    rule raises [AttributeError], which its [except] clause does not
    catch, and reports nothing. *)
Theorem iam_non_object_document_raises
        (json_loads : string -> option value)
        (props config : dict) (doc : string) (decoded : value) :
  lookup "policy" props = Some (VStr doc) ->
  doc <> "" ->
  json_loads doc = Some decoded ->
  Shape.is_dict decoded = false ->
  run (Policies.iam_policy_no_wildcard_actions json_loads)
      (resource "aws:iam/policy:Policy" props) config
  = (Raise AttributeError, []).
Proof.
  intros Hdoc Hnonempty Hdecode Hshape.
  apply String.eqb_neq in Hnonempty.
  unfold run, Policies.iam_policy_no_wildcard_actions.
  rewrite type_of_resource, String.eqb_refl, props_of_resource.
  cbn [get]. rewrite bind_lift_ok, (dict_get_found _ _ _ _ Hdoc).
  cbn [truthy]. rewrite Hnonempty. cbn [negb].
  rewrite Hdecode.
  destruct decoded; solve [discriminate Hshape | reflexivity].
Qed.

Lemma iam_non_object_document_raises_witness :
  run (Policies.iam_policy_no_wildcard_actions Json.decode)
      (resource "aws:iam/policy:Policy" [("policy", VStr "[1, 2]")]) []
  = (Raise AttributeError, []).
Proof.
  apply (iam_non_object_document_raises Json.decode
           [("policy", VStr "[1, 2]")] [] "[1, 2]" (VList [VInt 1; VInt 2])).
  - reflexivity.
  - discriminate.
  - vm_compute. reflexivity.
  - reflexivity.
Defined.

(** X12.  The IAM rule only ever inspects a policy given as a string: when
    the [policy] property is missing or holds anything else (a mapping
    that grants [*], for one), the rule reports nothing and the decoder is
    never consulted. *)
Theorem iam_policy_not_a_string_is_skipped
        (json_loads : string -> option value) (props config : dict) :
  Shape.is_str (dict_get props "policy" VNone) = false ->
  run (Policies.iam_policy_no_wildcard_actions json_loads)
      (resource "aws:iam/policy:Policy" props) config
  = (Ok tt, []).
Proof.
  intros Hshape.
  unfold run, Policies.iam_policy_no_wildcard_actions.
  rewrite type_of_resource, String.eqb_refl, props_of_resource.
  cbn [get]. rewrite bind_lift_ok.
  destruct (dict_get props "policy" VNone);
    solve [discriminate Hshape | reflexivity].
Qed.

Lemma iam_policy_not_a_string_is_skipped_witness :
  run (Policies.iam_policy_no_wildcard_actions Json.decode)
      (resource "aws:iam/policy:Policy"
         [("policy",
           VDict [("Statement",
                   VList [VDict [("Effect", VStr "Allow");
                                 ("Action", VStr "*")]])])])
      []
  = (Ok tt, []).
Proof.
  apply iam_policy_not_a_string_is_skipped. reflexivity.
Defined.

(** ** Ingress rules *)

Lemma web_port_is_not_zero (port : value) :
  (eq_int port 80 || eq_int port 443)%bool = true -> eq_int port 0 = false.
Proof.
  destruct port as [| [] | n | | |]; cbn [eq_int int_of_bool]; try discriminate.
  intros H. apply orb_true_iff in H.
  destruct H as [H | H]; apply Z.eqb_eq in H; subst; reflexivity.
Qed.

Lemma ingress_rule_reported (config rule : dict) (log : list Report) :
  (cidr_ipv4 <- lift (get (VDict rule) "cidrIpv4" (VStr "")) ;;
   from_port <- lift (get (VDict rule) "fromPort" (VInt 0)) ;;
   to_port <- lift (get (VDict rule) "toPort" (VInt 0)) ;;
   when (eq_str cidr_ipv4 "0.0.0.0/0")
        (if (eq_int from_port 0 && eq_int to_port 65535)%bool
         then report_violation
                "Security group allows unrestricted access on all ports from anywhere"
                MANDATORY
         else
           when (negb (eq_int from_port 80) && negb (eq_int from_port 443))%bool
                (report_violation
                   ("Security group allows unrestricted access on port "
                    ++ str from_port ++ " from anywhere")
                   (Policies.get_enforcement_level config)))) log
  = (Ok tt,
     (log ++ if ingress_flagged rule then [ingress_report config rule] else [])%list).
Proof.
  cbn [get]. rewrite !bind_lift_ok.
  unfold ingress_flagged, ingress_report, world_open, from_web_port.
  destruct (eq_str (dict_get rule "cidrIpv4" (VStr "")) "0.0.0.0/0");
    cbn [when andb ret]; [| now rewrite app_nil_r].
  destruct (eq_int (dict_get rule "fromPort" (VInt 0)) 80
            || eq_int (dict_get rule "fromPort" (VInt 0)) 443)%bool eqn:Hweb.
  - rewrite (web_port_is_not_zero _ Hweb). cbn [andb negb].
    rewrite <- negb_orb, Hweb. cbn [negb when ret]. now rewrite app_nil_r.
  - cbn [negb]. rewrite <- negb_orb, Hweb. cbn [negb when].
    destruct (eq_int (dict_get rule "fromPort" (VInt 0)) 0
              && eq_int (dict_get rule "toPort" (VInt 0)) 65535)%bool;
      reflexivity.
Qed.

Lemma ingress_rules_reported (config : dict) (rules : list dict)
      (log : list Report) :
  for_each (map VDict rules) (fun rule =>
    cidr_ipv4 <- lift (get rule "cidrIpv4" (VStr "")) ;;
    from_port <- lift (get rule "fromPort" (VInt 0)) ;;
    to_port <- lift (get rule "toPort" (VInt 0)) ;;
    when (eq_str cidr_ipv4 "0.0.0.0/0")
         (if (eq_int from_port 0 && eq_int to_port 65535)%bool
          then report_violation
                 "Security group allows unrestricted access on all ports from anywhere"
                 MANDATORY
          else
            when (negb (eq_int from_port 80) && negb (eq_int from_port 443))%bool
                 (report_violation
                    ("Security group allows unrestricted access on port "
                     ++ str from_port ++ " from anywhere")
                    (Policies.get_enforcement_level config)))) log
  = (Ok tt,
     (log ++ map (ingress_report config) (filter ingress_flagged rules))%list).
Proof.
  revert log. induction rules as [| rule rest IH]; intros log.
  - cbn [map for_each filter ret]. now rewrite app_nil_r.
  - cbn [map for_each filter]. unfold bind at 1.
    rewrite ingress_rule_reported, IH, <- app_assoc.
    destruct (ingress_flagged rule); reflexivity.
Qed.

(** X13.  On a security group whose ingress rules are dictionaries, the
    rule reports once for each ingress rule that is open to 0.0.0.0/0 and
    does not start at port 80 or 443, in order: MANDATORY when the rule
    spans ports 0 to 65535, at the configured level otherwise.  A rule
    that starts at port 80 or 443 is never reported, whatever its end
    port. *)
Theorem security_group_reports_per_rule
        (props config : dict) (rules : list dict) :
  dict_get props "ingressRules" (VList []) = VList (map VDict rules) ->
  run Policies.security_group_no_unrestricted_ingress
      (resource "aws:ec2/securityGroup:SecurityGroup" props) config
  = (Ok tt, map (ingress_report config) (filter ingress_flagged rules)).
Proof.
  intros Hrules.
  unfold run, Policies.security_group_no_unrestricted_ingress.
  rewrite type_of_resource, String.eqb_refl, props_of_resource.
  cbn [get]. rewrite bind_lift_ok, Hrules. cbn [iter]. rewrite bind_lift_ok.
  apply (ingress_rules_reported config rules []).
Qed.

Lemma security_group_reports_per_rule_witness :
  run Policies.security_group_no_unrestricted_ingress
      (resource "aws:ec2/securityGroup:SecurityGroup"
         [("ingressRules",
           VList [VDict [("cidrIpv4", VStr "0.0.0.0/0"); ("fromPort", VInt 80);
                         ("toPort", VInt 65535)];
                  VDict [("cidrIpv4", VStr "10.0.0.0/8"); ("fromPort", VInt 22);
                         ("toPort", VInt 22)];
                  VDict [("cidrIpv4", VStr "0.0.0.0/0"); ("fromPort", VInt 22);
                         ("toPort", VInt 22)]])])
      []
  = (Ok tt,
     [mkReport
        "Security group allows unrestricted access on port 22 from anywhere"
        MANDATORY]).
Proof.
  apply (security_group_reports_per_rule
           [("ingressRules",
             VList [VDict [("cidrIpv4", VStr "0.0.0.0/0"); ("fromPort", VInt 80);
                           ("toPort", VInt 65535)];
                    VDict [("cidrIpv4", VStr "10.0.0.0/8"); ("fromPort", VInt 22);
                           ("toPort", VInt 22)];
                    VDict [("cidrIpv4", VStr "0.0.0.0/0"); ("fromPort", VInt 22);
                           ("toPort", VInt 22)]])]
           []
           [[("cidrIpv4", VStr "0.0.0.0/0"); ("fromPort", VInt 80);
             ("toPort", VInt 65535)];
            [("cidrIpv4", VStr "10.0.0.0/8"); ("fromPort", VInt 22);
             ("toPort", VInt 22)];
            [("cidrIpv4", VStr "0.0.0.0/0"); ("fromPort", VInt 22);
             ("toPort", VInt 22)]]).
  reflexivity.
Defined.

Lemma for_each_app {A : Type} (l1 l2 : list A) (body : A -> M unit)
      (log : list Report) :
  for_each (l1 ++ l2) body log
  = match for_each l1 body log with
    | (Ok _, log') => for_each l2 body log'
    | (Raise e, log') => (Raise e, log')
    end.
Proof.
  revert log. induction l1 as [| x rest IH]; intros log.
  - reflexivity.
  - cbn [app for_each]. unfold bind.
    destruct (body x log) as [[[] | e] log']; [apply IH | reflexivity].
Qed.

(** X14.  The security-group rule stops at the first ingress rule that is
    not a dictionary: it raises [AttributeError] there, keeps the reports
    made for the rules before it, and never looks at the rules after
    it. *)
Theorem security_group_stops_at_malformed_rule
        (props config : dict) (before : list dict) (bad : value)
        (after : list value) :
  dict_get props "ingressRules" (VList [])
  = VList (map VDict before ++ bad :: after) ->
  Shape.is_dict bad = false ->
  run Policies.security_group_no_unrestricted_ingress
      (resource "aws:ec2/securityGroup:SecurityGroup" props) config
  = (Raise AttributeError,
     map (ingress_report config) (filter ingress_flagged before)).
Proof.
  intros Hrules Hbad.
  unfold run, Policies.security_group_no_unrestricted_ingress.
  rewrite type_of_resource, String.eqb_refl, props_of_resource.
  cbn [get]. rewrite bind_lift_ok, Hrules. cbn [iter]. rewrite bind_lift_ok.
  rewrite for_each_app, ingress_rules_reported. cbn [app for_each].
  destruct bad; solve [discriminate Hbad | reflexivity].
Qed.

Lemma security_group_stops_at_malformed_rule_witness :
  run Policies.security_group_no_unrestricted_ingress
      (resource "aws:ec2/securityGroup:SecurityGroup"
         [("ingressRules",
           VList [VDict [("cidrIpv4", VStr "0.0.0.0/0"); ("fromPort", VInt 22)];
                  VStr "sg-rule-2";
                  VDict [("cidrIpv4", VStr "0.0.0.0/0"); ("fromPort", VInt 23)]])])
      []
  = (Raise AttributeError,
     [mkReport
        "Security group allows unrestricted access on port 22 from anywhere"
        MANDATORY]).
Proof.
  apply (security_group_stops_at_malformed_rule
           [("ingressRules",
             VList [VDict [("cidrIpv4", VStr "0.0.0.0/0"); ("fromPort", VInt 22)];
                    VStr "sg-rule-2";
                    VDict [("cidrIpv4", VStr "0.0.0.0/0"); ("fromPort", VInt 23)]])]
           []
           [[("cidrIpv4", VStr "0.0.0.0/0"); ("fromPort", VInt 22)]]
           (VStr "sg-rule-2")
           [VDict [("cidrIpv4", VStr "0.0.0.0/0"); ("fromPort", VInt 23)]]);
    reflexivity.
Defined.

Lemma nist_rules_reported (rules : list dict) (log : list Report) :
  for_each (map VDict rules) (fun rule =>
    cidr <- lift (get rule "cidrIpv4" (VStr "")) ;;
    if eq_str cidr "0.0.0.0/0"
    then
      from_port <- lift (get rule "fromPort" (VInt 0)) ;;
      to_port <- lift (get rule "toPort" (VInt 65535)) ;;
      when (eq_int from_port 0 && eq_int to_port 65535)%bool
           (report_violation
              "NIST Cybersecurity Framework: Network access should be segmented, avoid unrestricted access"
              MANDATORY)
    else ret tt) log
  = (Ok tt,
     (log ++ map (fun _ =>
                    mkReport
                      "NIST Cybersecurity Framework: Network access should be segmented, avoid unrestricted access"
                      MANDATORY)
                 (filter nist_flagged rules))%list).
Proof.
  revert log. induction rules as [| rule rest IH]; intros log.
  - cbn [map for_each filter ret]. now rewrite app_nil_r.
  - cbn [map for_each filter]. unfold bind at 1.
    cbn [get]. rewrite bind_lift_ok.
    unfold nist_flagged, world_open.
    destruct (eq_str (dict_get rule "cidrIpv4" (VStr "")) "0.0.0.0/0");
      cbn [andb ret]; [| apply IH].
    rewrite !bind_lift_ok.
    destruct (eq_int (dict_get rule "fromPort" (VInt 0)) 0
              && eq_int (dict_get rule "toPort" (VInt 65535)) 65535)%bool;
      cbn [when report_violation ret map]; [| apply IH].
    rewrite IH, <- app_assoc. reflexivity.
Qed.

Lemma nist_flagged_is_ingress_flagged (rule : dict) :
  nist_flagged rule = true -> ingress_flagged rule = true.
Proof.
  unfold nist_flagged, ingress_flagged, from_web_port. intros H.
  apply andb_true_iff in H. destruct H as [Hopen H].
  apply andb_true_iff in H. destruct H as [Hzero _].
  rewrite Hopen. cbn [andb].
  destruct (dict_get rule "fromPort" (VInt 0)) as [| [] | n | | |];
    cbn [eq_int int_of_bool] in *; try discriminate; try reflexivity.
  apply Z.eqb_eq in Hzero. subst. reflexivity.
Qed.

Lemma filter_length_le {A : Type} (p q : A -> bool) (l : list A) :
  (forall x, p x = true -> q x = true) ->
  (length (filter p l) <= length (filter q l))%nat.
Proof.
  intros Hpq. induction l as [| x rest IH]; cbn [filter]; [lia |].
  destruct (p x) eqn:Hp.
  - rewrite (Hpq x Hp). cbn [length]. lia.
  - destruct (q x); cbn [length]; lia.
Qed.

(** X15.  The two packs agree on open security groups in one direction:
    on a security group whose ingress rules are dictionaries, both rules
    return, and every ingress rule the NIST segmentation entry reports is
    reported by the security-group rule of [policies] as well, so the NIST
    entry never makes more reports than the other. *)
Theorem nist_reports_within_security_group_reports
        (props config config' : dict) (rules : list dict) :
  dict_get props "ingressRules" (VList []) = VList (map VDict rules) ->
  let args := resource "aws:ec2/securityGroup:SecurityGroup" props in
  fst (run CompliancePolicies.nist_network_segmentation args config') = Ok tt /\
  fst (run Policies.security_group_no_unrestricted_ingress args config) = Ok tt /\
  (length (snd (run CompliancePolicies.nist_network_segmentation args config'))
   <= length (snd (run Policies.security_group_no_unrestricted_ingress
                     args config)))%nat.
Proof.
  intros Hrules args.
  assert (Hsg :
    run Policies.security_group_no_unrestricted_ingress args config
    = (Ok tt, map (ingress_report config) (filter ingress_flagged rules))).
  { unfold run, args, Policies.security_group_no_unrestricted_ingress.
    rewrite type_of_resource, String.eqb_refl, props_of_resource.
    cbn [get]. rewrite bind_lift_ok, Hrules. cbn [iter]. rewrite bind_lift_ok.
    apply (ingress_rules_reported config rules []). }
  assert (Hnist :
    run CompliancePolicies.nist_network_segmentation args config'
    = (Ok tt,
       map (fun _ =>
              mkReport
                "NIST Cybersecurity Framework: Network access should be segmented, avoid unrestricted access"
                MANDATORY)
           (filter nist_flagged rules))).
  { unfold run, args, CompliancePolicies.nist_network_segmentation.
    rewrite type_of_resource, String.eqb_refl, props_of_resource.
    cbn [get]. rewrite bind_lift_ok, Hrules. cbn [iter]. rewrite bind_lift_ok.
    apply (nist_rules_reported rules []). }
  rewrite Hsg, Hnist. cbn [fst snd]. rewrite !length_map.
  repeat split.
  apply filter_length_le. exact nist_flagged_is_ingress_flagged.
Qed.

Lemma nist_reports_within_security_group_reports_witness :
  let args :=
    resource "aws:ec2/securityGroup:SecurityGroup"
      [("ingressRules",
        VList [VDict [("cidrIpv4", VStr "0.0.0.0/0")];
               VDict [("cidrIpv4", VStr "0.0.0.0/0"); ("fromPort", VInt 22)]])] in
  fst (run CompliancePolicies.nist_network_segmentation args []) = Ok tt /\
  fst (run Policies.security_group_no_unrestricted_ingress args []) = Ok tt /\
  (length (snd (run CompliancePolicies.nist_network_segmentation args []))
   <= length (snd (run Policies.security_group_no_unrestricted_ingress args [])))%nat.
Proof.
  apply (nist_reports_within_security_group_reports
           [("ingressRules",
             VList [VDict [("cidrIpv4", VStr "0.0.0.0/0")];
                    VDict [("cidrIpv4", VStr "0.0.0.0/0"); ("fromPort", VInt 22)]])]
           [] []
           [[("cidrIpv4", VStr "0.0.0.0/0")];
            [("cidrIpv4", VStr "0.0.0.0/0"); ("fromPort", VInt 22)]]).
  reflexivity.
Defined.

(** ** Encryption rules *)

Lemma encryption_rules_reported (config : dict) (rules : list dict)
      (log : list Report) :
  (forall rule, In rule rules ->
     Shape.is_dict (dict_get rule "applyServerSideEncryptionByDefault" (VDict []))
     = true) ->
  for_each (map VDict rules) (fun rule =>
    apply_config <- lift (get rule "applyServerSideEncryptionByDefault" (VDict [])) ;;
    algorithm <- lift (get apply_config "sseAlgorithm" VNone) ;;
    when (negb (truthy algorithm))
         (report_violation
            "S3 bucket encryption rule must specify SSE algorithm"
            (Policies.get_enforcement_level config))) log
  = (Ok tt,
     (log ++ map (fun _ =>
                    mkReport "S3 bucket encryption rule must specify SSE algorithm"
                             (Policies.get_enforcement_level config))
                 (filter lacks_algorithm rules))%list).
Proof.
  revert log. induction rules as [| rule rest IH]; intros log Hshape.
  - cbn [map for_each filter ret]. now rewrite app_nil_r.
  - cbn [map for_each filter]. unfold bind at 1.
    cbn [get]. rewrite bind_lift_ok. unfold lacks_algorithm at 1.
    assert (Hrule := Hshape rule (or_introl eq_refl)). revert Hrule.
    destruct (dict_get rule "applyServerSideEncryptionByDefault" (VDict []))
      as [| | | | | apply_config]; try discriminate. intros _.
    cbn [get]. rewrite bind_lift_ok.
    assert (Hrest : forall r, In r rest ->
              Shape.is_dict (dict_get r "applyServerSideEncryptionByDefault" (VDict []))
              = true) by (intros r Hr; apply Hshape; now right).
    destruct (negb (truthy (dict_get apply_config "sseAlgorithm" VNone)));
      cbn [when report_violation ret map].
    + rewrite (IH _ Hrest), <- app_assoc. reflexivity.
    + apply (IH _ Hrest).
Qed.



(** ** Secrets in environment variables *)

Lemma lower_char_idempotent (c : ascii) :
  lower_char (lower_char c) = lower_char c.
Proof. destruct c as [[] [] [] [] [] [] [] []]; reflexivity. Qed.

Lemma separator_case_blind (c : ascii) :
  any_char (Ascii.eqb (lower_char c)) "_-" = any_char (Ascii.eqb c) "_-".
Proof. destruct c as [[] [] [] [] [] [] [] []]; reflexivity. Qed.

Lemma text_i_case_blind (w : string) : case_blind (Re.text_i w).
Proof.
  induction w as [| c rest IH]; [exact I |].
  split; [| exact IH].
  intros x. cbv beta. now rewrite lower_char_idempotent.
Qed.

Lemma alts_case_blind (rs : list Re.regex) :
  Forall case_blind rs -> case_blind (Re.alts rs).
Proof.
  induction 1 as [| r rest Hr Hrest IH]; [exact I |].
  destruct rest as [| r' rest']; [exact Hr |].
  split; [exact Hr | exact IH].
Qed.

Lemma deriv_case_blind (c : ascii) (r : Re.regex) :
  case_blind r ->
  case_blind (Re.deriv c r) /\ Re.deriv (lower_char c) r = Re.deriv c r.
Proof.
  induction r as [| | p | r IHr s IHs | r IHr s IHs | r IHr];
    cbn [case_blind Re.deriv]; intros H.
  - now split.
  - now split.
  - rewrite H. split; [destruct (p c); exact I | reflexivity].
  - destruct H as [Hr Hs].
    destruct (IHr Hr) as [Hr' ->]. destruct (IHs Hs) as [Hs' ->].
    split; [| reflexivity].
    destruct (Re.nullable r); cbn [case_blind]; auto.
  - destruct H as [Hr Hs].
    destruct (IHr Hr) as [Hr' ->]. destruct (IHs Hs) as [Hs' ->].
    now split.
  - destruct (IHr H) as [Hr' ->]. now split.
Qed.

Lemma match_prefix_lower (r : Re.regex) (s : string) :
  case_blind r -> Re.match_prefix r (str_lower s) = Re.match_prefix r s.
Proof.
  revert r. induction s as [| c rest IH]; intros r H; [reflexivity |].
  cbn [str_lower map_string Re.match_prefix].
  destruct (deriv_case_blind c r H) as [H' ->].
  fold (str_lower rest). now rewrite (IH _ H').
Qed.

Lemma search_lower (r : Re.regex) (s : string) :
  case_blind r -> Re.search r (str_lower s) = Re.search r s.
Proof.
  intros H. induction s as [| c rest IH].
  - reflexivity.
  - change (str_lower (String c rest))
      with (String (lower_char c) (str_lower rest)).
    cbn [Re.search]. rewrite IH.
    change (String (lower_char c) (str_lower rest))
      with (str_lower (String c rest)).
    now rewrite (match_prefix_lower r (String c rest) H).
Qed.

Lemma value_patterns_case_blind :
  Forall case_blind (firstn 3 Policies.secret_patterns).
Proof.
  unfold Policies.secret_patterns. cbn [firstn].
  apply Forall_cons; [| apply Forall_cons; [| apply Forall_cons; [| apply Forall_nil]]].
  - apply alts_case_blind.
    repeat (apply Forall_cons; [apply text_i_case_blind |]). apply Forall_nil.
  - apply alts_case_blind.
    repeat (apply Forall_cons; [apply text_i_case_blind |]). apply Forall_nil.
  - split; [apply text_i_case_blind |].
    split; [| apply text_i_case_blind].
    split; [exact I | exact separator_case_blind].
Qed.

Lemma existsb_false_In {A : Type} (f : A -> bool) (l : list A) (x : A) :
  existsb f l = false -> In x l -> f x = false.
Proof.
  intros H Hin. destruct (f x) eqn:Hfx; [| reflexivity].
  rewrite (proj2 (existsb_exists f l)) in H; [discriminate H |].
  now exists x.
Qed.

Lemma In_firstn_In {A : Type} (n : nat) (l : list A) (x : A) :
  In x (firstn n l) -> In x l.
Proof.
  revert l. induction n as [| n IH]; intros [| y rest]; cbn [firstn In];
    try contradiction.
  intros [-> | H]; [now left | right; now apply IH].
Qed.

Lemma quiet_patterns (patterns : list Re.regex) (subject : string)
      (report : M unit) (log : list Report) :
  (forall pattern, In pattern patterns -> Re.search pattern subject = false) ->
  for_each patterns (fun pattern => when (Re.search pattern subject) report) log
  = (Ok tt, log).
Proof.
  induction patterns as [| pattern rest IH]; intros H; [reflexivity |].
  cbn [for_each]. unfold bind.
  rewrite (H pattern (or_introl eq_refl)). cbn [when ret].
  apply IH. intros q Hq. apply H. now right.
Qed.



(** ** The two packs side by side *)

(** X18.  The versioning rule of [policies] and the GDPR versioning entry
    test the same condition: on every resource, whatever its type and
    properties and whatever the two configurations, they return or raise
    alike and make the same number of reports. *)
Theorem versioning_rules_agree
        (args : ResourceValidationArgs) (config config' : dict) :
  fst (run Policies.s3_bucket_versioning_enabled args config)
  = fst (run CompliancePolicies.gdpr_s3_versioning_for_data_protection
           args config') /\
  length (snd (run Policies.s3_bucket_versioning_enabled args config))
  = length (snd (run CompliancePolicies.gdpr_s3_versioning_for_data_protection
                   args config')).
Proof.
  unfold run, Policies.s3_bucket_versioning_enabled,
    CompliancePolicies.gdpr_s3_versioning_for_data_protection.
  destruct (String.eqb (resource_type args) _); [| split; reflexivity].
  destruct (args_get args "props" (VDict [])) as [| | | | | props];
    try (split; reflexivity).
  cbn [get]. rewrite !bind_lift_ok.
  destruct (dict_get props "versioningConfiguration" (VDict []))
    as [| | | | | versioning]; try (split; reflexivity).
  cbn [get]. rewrite !bind_lift_ok.
  destruct (negb (eq_str (dict_get versioning "status" VNone) "Enabled"));
    split; reflexivity.
Qed.

(** X19.  With [require-encryption] on, the RDS storage rule of [policies]
    and the ISO 27001 RDS entry test the same condition: on every
    resource they return or raise alike and make the same number of
    reports. *)
Theorem rds_encryption_rules_agree
        (args : ResourceValidationArgs) (config config' : dict) :
  truthy (dict_get config "require-encryption" (VBool true)) = true ->
  fst (run Policies.rds_instance_encrypted_storage args config)
  = fst (run CompliancePolicies.iso27001_rds_encryption args config') /\
  length (snd (run Policies.rds_instance_encrypted_storage args config))
  = length (snd (run CompliancePolicies.iso27001_rds_encryption args config')).
Proof.
  intros Hon.
  unfold run, Policies.rds_instance_encrypted_storage,
    CompliancePolicies.iso27001_rds_encryption.
  rewrite Hon. cbn [negb].
  destruct (String.eqb (resource_type args) _); [| split; reflexivity].
  destruct (args_get args "props" (VDict [])) as [| | | | | props];
    try (split; reflexivity).
  cbn [get]. rewrite !bind_lift_ok.
  destruct (negb (truthy (dict_get props "storageEncrypted" (VBool false))));
    split; reflexivity.
Qed.

Lemma rds_encryption_rules_agree_witness :
  fst (run Policies.rds_instance_encrypted_storage
         (resource "aws:rds/instance:Instance" [("storageEncrypted", VInt 0)]) [])
  = fst (run CompliancePolicies.iso27001_rds_encryption
           (resource "aws:rds/instance:Instance" [("storageEncrypted", VInt 0)])
           []) /\
  length (snd (run Policies.rds_instance_encrypted_storage
                 (resource "aws:rds/instance:Instance"
                    [("storageEncrypted", VInt 0)]) []))
  = length (snd (run CompliancePolicies.iso27001_rds_encryption
                   (resource "aws:rds/instance:Instance"
                      [("storageEncrypted", VInt 0)]) [])).
Proof.
  apply rds_encryption_rules_agree. reflexivity.
Defined.

(** X20.  With [require-https] on, the three listener rules are nested: on
    every resource the HTTPS-only rule of [policies], the PCI DSS entry
    and the GDPR entry return or raise alike; the first two make the same
    number of reports (one for any HTTP listener), and the GDPR entry,
    which lets HTTP pass on port 80, never makes more. *)
Theorem listener_rules_nested
        (args : ResourceValidationArgs) (config config' config'' : dict) :
  truthy (dict_get config "require-https" (VBool true)) = true ->
  let alb := run Policies.alb_listener_https_only args config in
  let pcidss := run CompliancePolicies.pcidss_alb_https_only args config' in
  let gdpr := run CompliancePolicies.gdpr_data_encryption_in_transit args config'' in
  fst alb = fst pcidss /\ fst pcidss = fst gdpr /\
  length (snd alb) = length (snd pcidss) /\
  (length (snd gdpr) <= length (snd alb))%nat.
Proof.
  intros Hon. cbv zeta.
  unfold run, Policies.alb_listener_https_only,
    CompliancePolicies.pcidss_alb_https_only,
    CompliancePolicies.gdpr_data_encryption_in_transit.
  rewrite Hon. cbn [negb].
  destruct (String.eqb (resource_type args) _);
    [| repeat split; reflexivity].
  destruct (args_get args "props" (VDict [])) as [| | | | | props];
    try (repeat split; reflexivity).
  cbn [get]. rewrite !bind_lift_ok.
  destruct (dict_get props "protocol" (VStr "")) as [| | | protocol | |];
    try (repeat split; reflexivity).
  cbn [upper]. rewrite !bind_lift_ok.
  destruct (String.eqb (str_upper protocol) "HTTP");
    destruct (eq_int (dict_get props "port" (VInt 80)) 80);
    cbn [andb negb]; rewrite ?bind_lift_ok;
    repeat split; cbn [when ret report_violation snd length app]; lia.
Qed.

Lemma listener_rules_nested_witness :
  let args := resource "aws:lb/listener:Listener" [("protocol", VStr "HTTP")] in
  fst (run Policies.alb_listener_https_only args [])
  = fst (run CompliancePolicies.pcidss_alb_https_only args []) /\
  fst (run CompliancePolicies.pcidss_alb_https_only args [])
  = fst (run CompliancePolicies.gdpr_data_encryption_in_transit args []) /\
  length (snd (run Policies.alb_listener_https_only args []))
  = length (snd (run CompliancePolicies.pcidss_alb_https_only args [])) /\
  (length (snd (run CompliancePolicies.gdpr_data_encryption_in_transit args []))
   <= length (snd (run Policies.alb_listener_https_only args [])))%nat.
Proof.
  apply (listener_rules_nested
           (resource "aws:lb/listener:Listener" [("protocol", VStr "HTTP")])
           [] [] []).
  reflexivity.
Defined.

(** X21.  The two backup rules draw the line at different places: for an
    integer retention period [r] (0 when the property is missing) the rule
    of [policies] reports exactly when [r] is 0, and the SOC 2 entry
    exactly when [r] is below 7; so a negative period passes the first and
    fails the second. *)
Theorem backup_retention_thresholds (props config config' : dict) (r : Z) :
  dict_get props "backupRetentionPeriod" (VInt 0) = VInt r ->
  let args := resource "aws:rds/instance:Instance" props in
  run Policies.rds_instance_backup_retention args config
  = (Ok tt,
     if r =? 0
     then [mkReport
             "RDS instance should have backup retention period configured (non-zero)"
             (Policies.get_enforcement_level config)]
     else []) /\
  run CompliancePolicies.soc2_rds_backup_retention args config'
  = (Ok tt,
     if r <? 7
     then [mkReport
             "SOC 2 Compliance: RDS instances must have backup retention period of at least 7 days"
             MANDATORY]
     else []).
Proof.
  intros Hretention args.
  unfold run, args, Policies.rds_instance_backup_retention,
    CompliancePolicies.soc2_rds_backup_retention.
  rewrite type_of_resource, String.eqb_refl, props_of_resource.
  cbn [get]. rewrite !bind_lift_ok, Hretention.
  cbn [eq_int lt_int as_int]. rewrite bind_lift_ok.
  destruct (r =? 0); destruct (r <? 7); split; reflexivity.
Qed.

Lemma backup_retention_thresholds_witness :
  let args :=
    resource "aws:rds/instance:Instance" [("backupRetentionPeriod", VInt (-1))] in
  run Policies.rds_instance_backup_retention args [] = (Ok tt, []) /\
  run CompliancePolicies.soc2_rds_backup_retention args []
  = (Ok tt,
     [mkReport
        "SOC 2 Compliance: RDS instances must have backup retention period of at least 7 days"
        MANDATORY]).
Proof.
  apply (backup_retention_thresholds
           [("backupRetentionPeriod", VInt (-1))] [] [] (-1)).
  reflexivity.
Defined.

(** ** The stack rule *)

Lemma filter_length_Permutation {A : Type} (f : A -> bool) (l l' : list A) :
  Permutation l l' -> length (filter f l) = length (filter f l').
Proof.
  induction 1 as [| x l l' _ IH | x y l | l l' l'' _ IH1 _ IH2].
  - reflexivity.
  - cbn [filter]. destruct (f x); cbn [length]; now rewrite IH.
  - cbn [filter]. destruct (f x); destruct (f y); reflexivity.
  - now rewrite IH1.
Qed.

Lemma count_limit_by_count (stack stack' : StackValidationArgs) (config : dict) :
  bucket_count stack = bucket_count stack' ->
  run Policies.s3_bucket_count_limit stack config
  = run Policies.s3_bucket_count_limit stack' config.
Proof.
  intros Hcount. unfold run, Policies.s3_bucket_count_limit.
  fold (bucket_count stack). fold (bucket_count stack').
  now rewrite Hcount.
Qed.

(** X22.  The count rule does not depend on the order of the resources of
    the stack, nor on its resources of other types: reordering the
    resources, or adding resources that are not buckets, leaves the
    outcome and the report unchanged. *)
Theorem s3_bucket_count_ignores_order_and_other_types
        (stack stack' : StackValidationArgs)
        (others : list ResourceValidationArgs) (config : dict) :
  (Permutation (resources stack) (resources stack') ->
   run Policies.s3_bucket_count_limit stack config
   = run Policies.s3_bucket_count_limit stack' config) /\
  (Forall (fun r => resource_type r <> "aws:s3/bucketV2:BucketV2") others ->
   run Policies.s3_bucket_count_limit
       (mkStack (resources stack ++ others)%list) config
   = run Policies.s3_bucket_count_limit stack config).
Proof.
  split.
  - intros Hperm. apply count_limit_by_count. unfold bucket_count.
    now apply filter_length_Permutation.
  - intros Hothers. apply count_limit_by_count. unfold bucket_count.
    cbn [resources]. rewrite filter_app, length_app.
    replace (filter _ others) with (@nil ResourceValidationArgs);
      [cbn [length]; lia |].
    symmetry. induction Hothers as [| r rest Hr _ IH]; [reflexivity |].
    cbn [filter]. apply String.eqb_neq in Hr. now rewrite Hr.
Qed.

Lemma s3_bucket_count_ignores_order_and_other_types_witness :
  run Policies.s3_bucket_count_limit
      (mkStack [resource "aws:s3/bucketV2:BucketV2" [];
                resource "aws:iam/role:Role" []])
      [("max-s3-buckets", VInt 0)]
  = run Policies.s3_bucket_count_limit
      (mkStack [resource "aws:iam/role:Role" [];
                resource "aws:s3/bucketV2:BucketV2" []])
      [("max-s3-buckets", VInt 0)].
Proof.
  apply (proj1 (s3_bucket_count_ignores_order_and_other_types
                  (mkStack [resource "aws:s3/bucketV2:BucketV2" [];
                            resource "aws:iam/role:Role" []])
                  (mkStack [resource "aws:iam/role:Role" [];
                            resource "aws:s3/bucketV2:BucketV2" []])
                  [] [("max-s3-buckets", VInt 0)])).
  cbn [resources]. apply perm_swap.
Defined.

(** X23.  A limit that is not a number makes the count rule raise
    [TypeError] on every stack, the empty one included, before anything is
    reported. *)
Theorem s3_bucket_count_limit_needs_a_number
        (stack : StackValidationArgs) (config : dict) :
  Shape.is_number (dict_get config "max-s3-buckets" (VInt 5)) = false ->
  run Policies.s3_bucket_count_limit stack config = (Raise TypeError, []).
Proof.
  intros Hshape. unfold run, Policies.s3_bucket_count_limit.
  destruct (dict_get config "max-s3-buckets" (VInt 5));
    solve [discriminate Hshape | reflexivity].
Qed.

Lemma s3_bucket_count_limit_needs_a_number_witness :
  run Policies.s3_bucket_count_limit (mkStack [])
      [("max-s3-buckets", VStr "5")]
  = (Raise TypeError, []).
Proof.
  apply s3_bucket_count_limit_needs_a_number. reflexivity.
Defined.

(** ** The packs *)

(** X24.  Within each of the two packs no two entries share a name. *)
Theorem pack_names_unique
        (json_loads : string -> option value) (pack : PolicyPack) :
  In pack (repository_packs json_loads) ->
  NoDup (map policy_name (pack_policies pack)).
Proof.
  intros [<- | [<- | []]]; cbn [map pack_policies Policies.policies
    CompliancePolicies.compliance_policies policy_name];
    repeat (constructor; [cbn [In]; intuition discriminate |]);
    constructor.
Qed.

Lemma pack_names_unique_witness :
  NoDup (map policy_name (pack_policies CompliancePolicies.compliance_policies)).
Proof.
  apply (pack_names_unique Json.decode). simpl; auto.
Defined.
